(** * Sleepwise front end: API client, form validation, dashboard ranking

    A shallow embedding of the TypeScript sources
    - [src/lib/apiClient.ts]       (the [apiClient] object: [post], [get]),
    - [src/pages/DailyLog.tsx]     ([sleepLogSchema], [handleSubmit]),
    - [src/pages/Dashboard.tsx]    ([fetchDashboardData], second revision),
    together with the parts of the JavaScript runtime and of the zod
    library (version 3) these functions rely on.

    Asynchronous code is written in a state-and-exception monad: the state
    is the browser-side world (session, trace of outside calls) paired with
    the React state of the component; an [await] is a bind. *)

From Stdlib Require Import ZArith QArith Lia Ascii String Sorted.
From stdpp Require Import base option list strings gmap pretty.

Open Scope string_scope.
Set Warnings "-register-all".

(** ** JavaScript numbers

    A number is NaN, an infinity or a finite value.  Finite doubles are
    rationals, and the only arithmetic the sources perform on them is the
    comparison against integer literals, which is exact. *)

Inductive number :=
| NaN
| Infinity (negative : bool)
| Finite (q : Q).

Definition of_Z (k : Z) : number := Finite (inject_Z k).

(** [a < k] and [a > k] as JavaScript evaluates them against an integer
    literal [k]: every comparison with NaN is false. *)
Definition lt_Z (a : number) (k : Z) : bool :=
  match a with
  | NaN => false
  | Infinity negative => negative
  | Finite q => (Qnum q <? k * Z.pos (Qden q))%Z
  end.

Definition gt_Z (a : number) (k : Z) : bool :=
  match a with
  | NaN => false
  | Infinity negative => negb negative
  | Finite q => (k * Z.pos (Qden q) <? Qnum q)%Z
  end.

Definition isNaN (a : number) : bool :=
  match a with NaN => true | _ => false end.

(** ** JavaScript values and plain objects *)

Inductive value :=
| VUndefined
| VNull
| VBoolean (b : bool)
| VNumber (n : number)
| VString (s : string)
| VArray (items : list value)
| VObject (props : list (string * value)).

Definition is_undefined (v : value) : bool :=
  match v with VUndefined => true | _ => false end.

(** A plain object is the list of its own properties in enumeration
    order (the order of [Object.keys], [Object.entries] and spread). *)
Definition object (V : Type) := list (string * V).

Module Obj.

Definition is_digit (a : ascii) : bool :=
  (48 <=? nat_of_ascii a)%nat && (nat_of_ascii a <=? 57)%nat.

Fixpoint digits_value (s : string) (acc : N) : option N :=
  match s with
  | EmptyString => Some acc
  | String a rest =>
      if is_digit a
      then digits_value rest (10 * acc + (N_of_ascii a - 48))%N
      else None
  end.

(** ECMAScript "array index": the canonical decimal spelling of an
    integer between 0 and 2^32 - 2. *)
Definition array_index (key : string) : option N :=
  match key with
  | EmptyString => None
  | String "0" EmptyString => Some 0%N
  | String "0" _ => None
  | _ =>
      match digits_value key 0 with
      | Some n => if (n <? 4294967295)%N then Some n else None
      | None => None
      end
  end.

Definition is_array_index (key : string) : bool :=
  bool_decide (is_Some (array_index key)).

Section Props.
Context {V : Type}.

(** [o[key]], [None] standing for [undefined] on a missing property *)
Fixpoint get (key : string) (o : object V) : option V :=
  match o with
  | [] => None
  | (k, v) :: rest => if decide (k = key) then Some v else get key rest
  end.

(** [key in o] *)
Definition has (key : string) (o : object V) : bool :=
  bool_decide (is_Some (get key o)).

(** Position of a new array-index property: before the first property
    that is a larger array index or not an array index at all. *)
Fixpoint place_index (n : N) (key : string) (v : V) (o : object V)
  : object V :=
  match o with
  | [] => [(key, v)]
  | (k, w) :: rest =>
      match array_index k with
      | Some m =>
          if (m <? n)%N then (k, w) :: place_index n key v rest
          else (key, v) :: o
      | None => (key, v) :: o
      end
  end.

Fixpoint replace (key : string) (v : V) (o : object V) : object V :=
  match o with
  | [] => []
  | (k, w) :: rest =>
      if decide (k = key) then (k, v) :: rest
      else (k, w) :: replace key v rest
  end.

(** [o[key] = v]: an existing property keeps its place; a new one is
    created, array indices first in ascending order, every other key
    after all existing ones. *)
Definition set (key : string) (v : V) (o : object V) : object V :=
  if has key o then replace key v o
  else match array_index key with
       | Some n => place_index n key v o
       | None => (o ++ [(key, v)])%list
       end.

(** An object built by creating the properties of [l] one after the
    other: an object literal, the result of [JSON.parse] on an object
    text, the copy made by a spread. *)
Definition of_entries (l : list (string * V)) : object V :=
  foldl (fun o kv => set kv.1 kv.2 o) [] l.

(** [Object.entries(o)] *)
Definition entries (o : object V) : list (string * V) := o.

(** [{...o}] *)
Definition spread (o : object V) : object V := of_entries (entries o).
End Props.

End Obj.

(** ** The runtime the sources are linked against

    The base URL is read from the build environment; [parseInt],
    [parseFloat], the printing of numbers, the URL parser and
    [JSON.stringify] are the browser's.  None of them is code of the
    repository. *)

Inductive ZodIssueCode := invalid_type | too_small | too_big.

Record ZodIssue := mkIssue {
  code : ZodIssueCode;
  path : list string;
  message : string
}.

Record URL := mkURL {
  href : string;                          (* everything but the query *)
  searchParams : list (string * string)   (* the query, entry by entry *)
}.

Class Runtime := {
    API_URL : string;                       (* import.meta.env.VITE_API_BASE_URL *)
    parseInt : string -> number;
    parseFloat : string -> number;
    Number_toString : number -> string;
    new_URL : string -> option URL;         (* [None]: the constructor throws *)
    JSON_stringify : list ZodIssue -> string   (* the text of a ZodError *)
  }.

Section Values.
Context `{Runtime}.

(** Truthiness, as used by [!token] and [a || b]. *)
Definition truthy (v : value) : bool :=
  match v with
  | VUndefined | VNull => false
  | VBoolean b => b
  | VNumber NaN => false
  | VNumber (Infinity _) => true
  | VNumber (Finite q) => negb (Qnum q =? 0)%Z
  | VString s => negb (bool_decide (s = ""))
  | VArray _ | VObject _ => true
  end.

Definition join (sep : string) (parts : list string) : string :=
  match parts with
  | [] => ""
  | p :: ps => foldl (fun acc q => acc ++ sep ++ q) p ps
  end.

(** Whether [String(v)] returns.  The conversion of an object calls its
    [toString]; a property of the object's own named [toString] hides the
    inherited method, and since no property of these values is a function
    neither it nor [valueOf] gives a primitive: a TypeError is thrown.
    An array converts each of its elements, null and undefined apart. *)
Fixpoint convertible (v : value) : bool :=
  match v with
  | VArray items =>
      (fix each (l : list value) : bool :=
         match l with
         | [] => true
         | x :: l' => convertible x && each l'
         end) items
  | VObject props => negb (Obj.has "toString" props)
  | _ => true
  end.

(** The text [String(v)] returns, for a [convertible] value: the
    conversion behind [new Error(v)] and
    [searchParams.append(key, String(v))]. *)
Fixpoint ToString (v : value) : string :=
  match v with
  | VUndefined => "undefined"
  | VNull => "null"
  | VBoolean true => "true"
  | VBoolean false => "false"
  | VNumber n => Number_toString n
  | VString s => s
  | VArray items =>
      join ","
        ((fix each (l : list value) : list string :=
            match l with
            | [] => []
            | VUndefined :: l' | VNull :: l' => "" :: each l'
            | x :: l' => ToString x :: each l'
            end) items)
  | VObject _ => "[object Object]"
  end.
End Values.

(** ** Exceptions

    What a [throw] or a rejected promise carries.  [ZodError] is the
    error of a failed [schema.parse]; the other three are the built-in
    classes, all of them [instanceof Error]. *)

Inductive ErrorClass := PlainError | SyntaxError | TypeError.

Inductive exn :=
| ZodError (errors : list ZodIssue)
| JsError (class : ErrorClass) (msg : string).

(** [error instanceof Error ? error.message : ...]: every exception of
    the model is an [Error]; a [ZodError] prints its issues. *)
Definition Error_message `{Runtime} (error : exn) : string :=
  match error with
  | ZodError errors => JSON_stringify errors
  | JsError _ msg => msg
  end.

(** ** Asynchronous code as a state-and-exception monad *)

Inductive Completion (A : Type) :=
| Normal (a : A)
| Throw (e : exn).
Arguments Normal {A} a.
Arguments Throw {A} e.

Definition M (S A : Type) : Type := S -> Completion A * S.

#[global] Instance M_ret {S} : MRet (M S) := fun A a s => (Normal a, s).

#[global] Instance M_bind {S} : MBind (M S) := fun A B f m s =>
  match m s with
  | (Normal a, s') => f a s'
  | (Throw e, s') => (Throw e, s')
  end.

Definition throw {S A} (e : exn) : M S A := fun s => (Throw e, s).

Definition modify {S} (f : S -> S) : M S unit := fun s => (Normal tt, f s).

Definition gets {S A} (f : S -> A) : M S A := fun s => (Normal (f s), s).

(** [try { body } catch (error) { handler }] *)
Definition try_catch {S A} (body : M S A) (handler : exn -> M S A) : M S A :=
  fun s =>
    match body s with
    | (Normal a, s') => (Normal a, s')
    | (Throw e, s') => handler e s'
    end.

(** [try { body } finally { cleanup }] *)
Definition finally {S A} (body : M S A) (cleanup : M S unit) : M S A :=
  fun s =>
    match body s with
    | (r, s') =>
        match cleanup s' with
        | (Normal _, s'') => (r, s'')
        | (Throw e, s'') => (Throw e, s'')
        end
    end.

(** [String(v)], which [new Error(v)] also makes of a message [v] *)
Definition String_ `{Runtime} {S} (v : value) : M S string :=
  if convertible v then mret (ToString v)
  else throw (JsError TypeError "Cannot convert object to primitive value").

(** [entries.forEach(step)], the steps updating one object [a] *)
Fixpoint forEach {S A B} (entries : list B) (step : A -> B -> M S A) (a : A)
  : M S A :=
  match entries with
  | [] => mret a
  | e :: rest => a' ← step a e; forEach rest step a'
  end.

(** ** HTTP, as [fetch] shows it to the client *)

Inductive Method := GET | POST.

(** The first argument of [fetch]: a plain string, or [url.toString()]
    of a URL object (kept structured, query entries apart). *)
Inductive Target :=
| Href (s : string)
| Serialized (u : URL).

Record Request := mkRequest {
  method : Method;
  target : Target;
  headers : list (string * string);
  json_body : option (object value)   (* the object given to JSON.stringify *)
}.

(** The outcome of [response.json()]. *)
Inductive Body (T : Type) :=
| Unparseable (why : string)   (* the promise rejects with a SyntaxError *)
| Parsed (data : T).
Arguments Unparseable {T} why.
Arguments Parsed {T} data.

(** A response: [ok] with a body taken at the caller's type [T] (the cast
    [response.json() as Promise<T>] checks nothing), or not [ok] with any
    JSON value as body. *)
Inductive Response (T : Type) :=
| Success (body : Body T)
| Failure (body : Body value).
Arguments Success {T} body.
Arguments Failure {T} body.

Definition ok {T} (r : Response T) : bool :=
  match r with Success _ => true | Failure _ => false end.

Inductive FetchOutcome (T : Type) :=
| Unreachable (why : string)   (* network failure: fetch rejects *)
| Responded (r : Response T).
Arguments Unreachable {T} why.
Arguments Responded {T} r.

(** ** The world outside the page: the Supabase session and the trace of
    calls that left the page *)

Record Session := mkSession { access_token : string }.
Record User := mkUser { id : string }.

Inductive Event :=
| AuthGetUser
| AuthGetSession
| Fetch (req : Request).

Record World := mkWorld {
  session : option Session;
  user : option User;
  trace : list Event
}.

Definition emit (e : Event) (w : World) : World :=
  {| session := session w; user := user w; trace := (trace w ++ [e])%list |}.

(** The requests that reached the network layer, oldest first. *)
Definition requests (w : World) : list Request :=
  omap (fun e => match e with Fetch r => Some r | _ => None end) (trace w).

(** [supabase.auth.getSession()], [supabase.auth.getUser()] *)
Definition getSession : M World (option Session) :=
  fun w => (Normal (session w), emit AuthGetSession w).

Definition getUser : M World (option User) :=
  fun w => (Normal (user w), emit AuthGetUser w).

(** [fetch(target, init)] against a backend that answers [backend req] *)
Definition fetch {T} (backend : Request -> FetchOutcome T) (req : Request)
  : M World (Response T) :=
  fun w =>
    match backend req with
    | Unreachable why => (Throw (JsError TypeError why), emit (Fetch req) w)
    | Responded r => (Normal r, emit (Fetch req) w)
    end.

(** [response.json()] *)
Definition json {S T} (b : Body T) : M S T :=
  match b with
  | Unparseable why => throw (JsError SyntaxError why)
  | Parsed data => mret data
  end.

(** [v.key] for a property name that no primitive or array carries *)
Definition get_property {S} (v : value) (key : string) : M S value :=
  match v with
  | VUndefined | VNull =>
      throw (JsError TypeError ("Cannot read properties of " ++
               (match v with VNull => "null" | _ => "undefined" end) ++
               " (reading '" ++ key ++ "')"))
  | VObject props => mret (default VUndefined (Obj.get key props))
  | _ => mret VUndefined
  end.

(** ** src/lib/apiClient.ts *)

Module apiClient.
Section apiClient.
Context `{Runtime}.

(** [a || b] *)
Definition or_else (a b : value) : value := if truthy a then a else b.

Definition token_value (token : option string) : value :=
  match token with Some t => VString t | None => VNull end.

(** [session?.access_token || null] *)
Definition getAuthToken : M World (option string) :=
  session ← getSession;
  mret (match session with
        | Some s => if truthy (VString (access_token s))
                    then Some (access_token s) else None
        | None => None
        end).

(** [url.searchParams.append(key, v)] *)
Definition append (url : URL) (key v : string) : URL :=
  {| href := href url; searchParams := (searchParams url ++ [(key, v)])%list |}.

Definition post {T} (backend : Request -> FetchOutcome T)
    (endpoint : string) (body : object value) : M World T :=
  token ← getAuthToken;
  response ← fetch backend
    {| method := POST;
       target := Href (API_URL ++ endpoint);
       headers := [("Content-Type", "application/json")];
       json_body := Some (Obj.set "token" (token_value token) (Obj.spread body)) |};
  match response with
  | Failure b =>
      errorData ← json b;
      detail ← get_property errorData "detail";
      message ← String_ (or_else detail (VString "API request failed"));
      throw (JsError PlainError message)
  | Success b => json b
  end.

Definition get {T} (backend : Request -> FetchOutcome T)
    (endpoint : string) (params : option (object value)) : M World T :=
  token ← getAuthToken;
  match token with
  | None => throw (JsError PlainError "Authentication token not found.")
  | Some token =>
      match new_URL (API_URL ++ endpoint) with
      | None => throw (JsError TypeError "Invalid URL")
      | Some url =>
          let url := append url "token" token in
          url ← match params with
                | Some params =>
                    forEach (Obj.entries params)
                      (fun url kv => v ← String_ kv.2; mret (append url kv.1 v))
                      url
                | None => mret url
                end;
          response ← fetch backend
            {| method := GET;
               target := Serialized url;
               headers := [];
               json_body := None |};
          match response with
          | Failure b =>
              errorData ← json b;
              detail ← get_property errorData "detail";
              message ← String_ (or_else detail (VString "API request failed"));
              throw (JsError PlainError message)
          | Success b => json b
          end
      end
  end.
End apiClient.
End apiClient.

(** ** zod (version 3): the part of the library the schemas use

    Number and string schemas with [min]/[max] checks, object schemas in
    their default mode (unknown keys stripped), the default English error
    map, [parse]. *)

Module Zod.

Inductive ZodParsedType :=
| pt_undefined | pt_null | pt_nan | pt_number | pt_string
| pt_boolean | pt_array | pt_object.

Definition getParsedType (data : value) : ZodParsedType :=
  match data with
  | VUndefined => pt_undefined
  | VNull => pt_null
  | VBoolean _ => pt_boolean
  | VNumber n => if isNaN n then pt_nan else pt_number
  | VString _ => pt_string
  | VArray _ => pt_array
  | VObject _ => pt_object
  end.

Definition type_name (t : ZodParsedType) : string :=
  match t with
  | pt_undefined => "undefined" | pt_null => "null" | pt_nan => "nan"
  | pt_number => "number" | pt_string => "string"
  | pt_boolean => "boolean" | pt_array => "array" | pt_object => "object"
  end.

(** [{ kind: "min" | "max", value, inclusive: true }] *)
Inductive Check :=
| min_check (limit : Z)
| max_check (limit : Z).

Inductive ZodType :=
| ZodNumber (checks : list Check)
| ZodString (checks : list Check).

Definition ZodObject := list (string * ZodType).   (* the shape *)

(** The default error map. *)
Definition invalid_type_issue (expected received : ZodParsedType)
    (path : list string) : ZodIssue :=
  {| code := invalid_type;
     path := path;
     message :=
       match received with
       | pt_undefined => "Required"
       | _ => "Expected " ++ type_name expected ++
              ", received " ++ type_name received
       end |}.

Definition too_small_number (minimum : Z) (path : list string) : ZodIssue :=
  {| code := too_small; path := path;
     message := "Number must be greater than or equal to " ++ pretty minimum |}.

Definition too_big_number (maximum : Z) (path : list string) : ZodIssue :=
  {| code := too_big; path := path;
     message := "Number must be less than or equal to " ++ pretty maximum |}.

Definition too_small_string (minimum : Z) (path : list string) : ZodIssue :=
  {| code := too_small; path := path;
     message := "String must contain at least " ++ pretty minimum ++
                " character(s)" |}.

Definition too_big_string (maximum : Z) (path : list string) : ZodIssue :=
  {| code := too_big; path := path;
     message := "String must contain at most " ++ pretty maximum ++
                " character(s)" |}.

(** What [_parse] returns; the issues it reports are returned next to
    it, in the order of the [addIssueToContext] calls. *)
Inductive SyncParseReturn (T : Type) :=
| INVALID
| DIRTY (v : T)
| OK (v : T).
Arguments INVALID {T}.
Arguments DIRTY {T} v.
Arguments OK {T} v.

Definition with_status {T} (issues : list ZodIssue) (v : T)
  : SyncParseReturn T * list ZodIssue :=
  (match issues with [] => OK v | _ => DIRTY v end, issues).

(** [ZodNumber._parse]: a wrong type aborts; otherwise every check of
    the chain is run. *)
Definition number_checks (n : number) (path : list string)
    (checks : list Check) : list ZodIssue :=
  omap (fun check =>
          match check with
          | min_check limit =>
              if lt_Z n limit then Some (too_small_number limit path) else None
          | max_check limit =>
              if gt_Z n limit then Some (too_big_number limit path) else None
          end) checks.

(** [ZodString._parse] *)
Definition string_checks (s : string) (path : list string)
    (checks : list Check) : list ZodIssue :=
  omap (fun check =>
          match check with
          | min_check limit =>
              if (Z.of_nat (String.length s) <? limit)%Z
              then Some (too_small_string limit path) else None
          | max_check limit =>
              if (limit <? Z.of_nat (String.length s))%Z
              then Some (too_big_string limit path) else None
          end) checks.

Definition _parse (schema : ZodType) (path : list string) (input : value)
  : SyncParseReturn value * list ZodIssue :=
  match schema, getParsedType input, input with
  | ZodNumber checks, pt_number, VNumber n =>
      with_status (number_checks n path checks) input
  | ZodNumber _, received, _ =>
      (INVALID, [invalid_type_issue pt_number received path])
  | ZodString checks, pt_string, VString s =>
      with_status (string_checks s path checks) input
  | ZodString _, received, _ =>
      (INVALID, [invalid_type_issue pt_string received path])
  end.

(** One entry of [pairs] in [ZodObject._parse]. *)
Record Pair := mkPair {
  key : string;
  parsed : SyncParseReturn value;
  alwaysSet : bool                  (* [key in ctx.data] *)
}.

(** [ParseStatus.mergeObjectSync]: [None] is INVALID, the boolean is
    the dirty flag. *)
Fixpoint mergeObjectSync (is_dirty : bool) (finalObject : object value)
    (pairs : list Pair) : option (bool * object value) :=
  match pairs with
  | [] => Some (is_dirty, finalObject)
  | p :: rest =>
      let store v :=
        if negb (bool_decide (key p = "__proto__")) &&
           (negb (is_undefined v) || alwaysSet p)
        then Obj.set (key p) v finalObject else finalObject in
      match parsed p with
      | INVALID => None
      | DIRTY v => mergeObjectSync true (store v) rest
      | OK v => mergeObjectSync is_dirty (store v) rest
      end
  end.

(** [ZodObject._parse] *)
Definition object_parse (shape : ZodObject) (data : value)
  : SyncParseReturn (object value) * list ZodIssue :=
  match data with
  | VObject props =>
      let results :=
        map (fun kv =>
               let r := _parse kv.2 [kv.1]
                          (default VUndefined (Obj.get kv.1 props)) in
               ({| key := kv.1; parsed := r.1;
                   alwaysSet := Obj.has kv.1 props |}, r.2)) shape in
      (match mergeObjectSync false [] (map fst results) with
       | None => INVALID
       | Some (true, finalObject) => DIRTY finalObject
       | Some (false, finalObject) => OK finalObject
       end,
       concat (map snd results))
  | _ => (INVALID, [invalid_type_issue pt_object (getParsedType data) []])
  end.

(** [schema.safeParse(data)] *)
Inductive SafeParseReturn :=
| success (data : object value)
| failure (error : list ZodIssue).   (* [error.errors] *)

Definition safeParse {S} (schema : ZodObject) (data : value)
  : M S SafeParseReturn :=
  match object_parse schema data with
  | (OK v, _) => mret (success v)
  | (_, []) =>
      throw (JsError PlainError "Validation failed but no issues detected.")
  | (_, issues) => mret (failure issues)
  end.

(** [schema.parse(data)]: the parsed data, or a thrown [ZodError]. *)
Definition parse {S} (schema : ZodObject) (data : value)
  : M S (object value) :=
  result ← safeParse schema data;
  match result with
  | success data => mret data
  | failure error => throw (ZodError error)
  end.
End Zod.

(** The builders, under the names the sources call them by. *)
Module z.
Definition number : Zod.ZodType := Zod.ZodNumber [].
Definition string : Zod.ZodType := Zod.ZodString [].

Definition add_check (c : Zod.Check) (t : Zod.ZodType) : Zod.ZodType :=
  match t with
  | Zod.ZodNumber checks => Zod.ZodNumber (checks ++ [c])%list
  | Zod.ZodString checks => Zod.ZodString (checks ++ [c])%list
  end.

Definition min (limit : Z) : Zod.ZodType -> Zod.ZodType :=
  add_check (Zod.min_check limit).
Definition max (limit : Z) : Zod.ZodType -> Zod.ZodType :=
  add_check (Zod.max_check limit).

Definition object (shape : object Zod.ZodType) : Zod.ZodObject :=
  Obj.entries shape.
End z.

(** Method chaining: [x |> f] is [x.f]. *)
Notation "x |> f" := (f x) (at level 45, left associativity, only parsing).

(** ** Arrays and promises *)

(** [array.sort(comparefn)]: a stable sort; [comparefn a b > 0] puts [a]
    after [b].  Written as an insertion sort, the element that came first
    staying first among equals. *)
Fixpoint sort_insert {A} (comparefn : A -> A -> Z) (x : A) (l : list A)
  : list A :=
  match l with
  | [] => [x]
  | y :: rest =>
      if (0 <? comparefn x y)%Z then y :: sort_insert comparefn x rest
      else x :: l
  end.

Definition Array_sort {A} (comparefn : A -> A -> Z) (l : list A) : list A :=
  foldr (sort_insert comparefn) [] l.

(** [array.slice(0, n)] *)
Definition slice0 {A} (n : nat) (l : list A) : list A := take n l.

(** Which of two promises settles first. *)
Inductive Side := Left | Right.

(** [Promise.all([p1, p2])]: both computations were started by the time
    [Promise.all] is called, so both run whatever the other does; the
    result is the pair of their values, or the reason of the rejection
    that came first.  The trace lists the outside calls of [p1] before
    those of [p2]; neither reads what the other writes. *)
Definition Promise_all {S A B} (earliest : Side) (p1 : M S A) (p2 : M S B)
  : M S (A * B) :=
  fun s =>
    match p1 s with
    | (r1, s1) =>
        match p2 s1 with
        | (r2, s2) =>
            (match r1, r2 with
             | Normal a, Normal b => Normal (a, b)
             | Throw e, Normal _ => Throw e
             | Normal _, Throw e => Throw e
             | Throw e1, Throw e2 =>
                 Throw (match earliest with Left => e1 | Right => e2 end)
             end, s2)
        end
    end.

(** ** React state shared by the pages *)

Record Toast := mkToast {
  title : string;
  description : string;
  variant : option string
}.

(** Run a computation of the outside world inside a page. *)
Definition outside {V A} (m : M World A) : M (V * World) A :=
  fun s => match m s.2 with (r, w) => (r, (s.1, w)) end.

Definition page {V A} (m : M V A) : M (V * World) A :=
  fun s => match m s.1 with (r, v) => (r, (v, s.2)) end.

(** ** src/pages/DailyLog.tsx *)

Module DailyLog.

Definition sleepLogSchema : Zod.ZodObject :=
  z.object (Obj.of_entries [
    ("age", z.number |> z.min 1 |> z.max 120);
    ("gender", z.string |> z.min 1);
    ("sleep_duration", z.number |> z.min 0 |> z.max 24);
    ("stress_level", z.number |> z.min 1 |> z.max 10);
    ("daily_steps", z.number |> z.min 0);
    ("bmi_category", z.string |> z.min 1);
    ("blood_pressure", z.string |> z.min 1);
    ("heart_rate", z.number |> z.min 30 |> z.max 220);
    ("physical_activity", z.number |> z.min 0)
  ]).

(** The nine metrics: as typed into the form ([Num := string], the
    slider holding a list of numbers), and after numeric coercion
    ([Num := number], the slider read at index 0). *)
Record Metrics (Num Slider : Type) := mkMetrics {
  age : Num;
  gender : string;
  sleep_duration : Num;
  stress_level : Slider;
  daily_steps : Num;
  bmi_category : string;
  blood_pressure : string;
  heart_rate : Num;
  physical_activity : Num
}.
Arguments mkMetrics {Num Slider}.
Arguments age {Num Slider}.
Arguments gender {Num Slider}.
Arguments sleep_duration {Num Slider}.
Arguments stress_level {Num Slider}.
Arguments daily_steps {Num Slider}.
Arguments bmi_category {Num Slider}.
Arguments blood_pressure {Num Slider}.
Arguments heart_rate {Num Slider}.
Arguments physical_activity {Num Slider}.

Definition FormData := Metrics string (list number).
(** [None] in the slider position is [undefined]. *)
Definition HealthMetricsInput := Metrics number (option number).

Definition initialFormData : FormData :=
  mkMetrics "" "" "" [of_Z 5] "" "" "" "" "".

Record State := mkState {
  formData : FormData;
  isLoading : bool;
  errors : gmap string string;
  toasts : list Toast
}.

Definition setFormData (f : FormData) : M State unit :=
  modify (fun st => mkState f (isLoading st) (errors st) (toasts st)).
Definition setIsLoading (b : bool) : M State unit :=
  modify (fun st => mkState (formData st) b (errors st) (toasts st)).
Definition setErrors (e : gmap string string) : M State unit :=
  modify (fun st => mkState (formData st) (isLoading st) e (toasts st)).
Definition toast (t : Toast) : M State unit :=
  modify (fun st => mkState (formData st) (isLoading st) (errors st)
                            (toasts st ++ [t])%list).

Definition number_or_undefined (n : option number) : value :=
  match n with Some n => VNumber n | None => VUndefined end.

(** The object literal handed to [sleepLogSchema.parse]. *)
Definition literal (m : HealthMetricsInput) : object value :=
  Obj.of_entries [
    ("age", VNumber (age m));
    ("gender", VString (gender m));
    ("sleep_duration", VNumber (sleep_duration m));
    ("stress_level", number_or_undefined (stress_level m));
    ("daily_steps", VNumber (daily_steps m));
    ("bmi_category", VString (bmi_category m));
    ("blood_pressure", VString (blood_pressure m));
    ("heart_rate", VNumber (heart_rate m));
    ("physical_activity", VNumber (physical_activity m))
  ].

(** [fieldErrors[err.path[0]] = err.message] for each issue in turn;
    an empty path reads as the key "undefined". *)
Definition fieldErrors (errors : list ZodIssue) : gmap string string :=
  foldl (fun acc err => <[default "undefined" (head (path err)) := message err]> acc)
        ∅ errors.

Section handleSubmit.
Context `{Runtime}.

(** The numeric coercion of the form fields. *)
Definition coerce (f : FormData) : HealthMetricsInput :=
  {| age := parseInt (age f);
     gender := gender f;
     sleep_duration := parseFloat (sleep_duration f);
     stress_level := head (stress_level f);
     daily_steps := parseInt (daily_steps f);
     bmi_category := bmi_category f;
     blood_pressure := blood_pressure f;
     heart_rate := parseInt (heart_rate f);
     physical_activity := parseInt (physical_activity f) |}.

Definition handleSubmit (backend : Request -> FetchOutcome value)
  : M (State * World) unit :=
  page (setIsLoading true);;
  page (setErrors ∅);;
  finally
    (try_catch
       (formData ← page (gets formData);
        validatedData ← Zod.parse sleepLogSchema
                          (VObject (literal (coerce formData)));
        user ← outside getUser;
        match user with
        | None =>
            page (toast {| title := "Authentication required";
                           description := "Please sign in to log your data.";
                           variant := Some "destructive" |});;
            page (setIsLoading false)
        | Some _ =>
            outside (apiClient.post backend "/log" validatedData);;
            page (toast {| title := "Daily log stored successfully! 🌙";
                           description := "Your sleep data has been recorded.";
                           variant := None |});;
            page (setFormData initialFormData)
        end)
       (fun error =>
          match error with
          | ZodError errors => page (setErrors (fieldErrors errors))
          | _ =>
              let errorMessage := Error_message error in
              page (toast {| title := "Failed to save log";
                             description := errorMessage;
                             variant := Some "destructive" |})
          end))
    (page (setIsLoading false)).
End handleSubmit.
End DailyLog.

(** ** src/pages/Dashboard.tsx (the revision that calls the backend) *)

Module Dashboard.

Record LogEntry := mkLogEntry {
  created_at : string;
  sleep_duration : option number;      (* [None] is null *)
  predicted_quality : option number;
  stress_level : option number;
  daily_steps : option number
}.

Record Averages := mkAverages {
  sleep : number;
  quality : number;
  stress : number;
  steps : number
}.

Module SeriesData.
Record t := mk {
  logs : list LogEntry;
  averages : Averages
}.
End SeriesData.

Module DriversData.
Record t := mk {
  latest_top_drivers : list string;
  driver_counts : object Z            (* occurrence counts *)
}.
End DriversData.

Record Driver := mkDriver {
  driver : string;
  count : Z
}.

Record State := mkState {
  logs : list LogEntry;
  averages : Averages;
  topDrivers : list Driver;
  isLoading : bool;
  days : string;
  toasts : list Toast
}.

Definition initialState : State :=
  mkState [] (mkAverages (of_Z 0) (of_Z 0) (of_Z 0) (of_Z 0)) [] true "7" [].

Definition setLogs (l : list LogEntry) : M State unit :=
  modify (fun st => mkState l (averages st) (topDrivers st) (isLoading st)
                            (days st) (toasts st)).
Definition setAverages (a : Averages) : M State unit :=
  modify (fun st => mkState (logs st) a (topDrivers st) (isLoading st)
                            (days st) (toasts st)).
Definition setTopDrivers (d : list Driver) : M State unit :=
  modify (fun st => mkState (logs st) (averages st) d (isLoading st)
                            (days st) (toasts st)).
Definition setIsLoading (b : bool) : M State unit :=
  modify (fun st => mkState (logs st) (averages st) (topDrivers st) b
                            (days st) (toasts st)).
Definition toast (t : Toast) : M State unit :=
  modify (fun st => mkState (logs st) (averages st) (topDrivers st)
                            (isLoading st) (days st) (toasts st ++ [t])%list).

(** [([, a], [, b]) => b - a] *)
Definition by_count (x y : string * Z) : Z := (y.2 - x.2)%Z.

(** [Object.entries(driver_counts).sort(([, a], [, b]) => b - a)
      .slice(0, 5).map(([driver, count]) => ({ driver, count }))] *)
Definition formatDrivers (driver_counts : object Z) : list Driver :=
  map (fun entry => {| driver := entry.1; count := entry.2 |})
    (slice0 5 (Array_sort by_count (Obj.entries driver_counts))).

Section fetchDashboardData.
Context `{Runtime}.

Definition fetchDashboardData (earliest : Side)
    (series : Request -> FetchOutcome SeriesData.t)
    (top_drivers : Request -> FetchOutcome DriversData.t)
  : M (State * World) unit :=
  page (setIsLoading true);;
  finally
    (try_catch
       (days ← page (gets days);
        both ← outside
          (Promise_all earliest
             (apiClient.get series "/dashboard/series"
                (Some (Obj.of_entries [("days", VNumber (parseInt days))])))
             (apiClient.get top_drivers "/dashboard/top-drivers"
                (Some (Obj.of_entries [("days", VNumber (parseInt days))]))));
        let seriesData := both.1 in
        let driversData := both.2 in
        page (setLogs (SeriesData.logs seriesData));;
        page (setAverages (SeriesData.averages seriesData));;
        let formattedDrivers :=
          formatDrivers (DriversData.driver_counts driversData) in
        page (setTopDrivers formattedDrivers))
       (fun error =>
          let errorMessage := Error_message error in
          page (toast {| title := "Failed to load dashboard";
                         description := errorMessage;
                         variant := Some "destructive" |})))
    (page (setIsLoading false)).
End fetchDashboardData.
End Dashboard.

(** ** src/pages/Predict.tsx *)

Module Predict.

Definition predictionSchema : Zod.ZodObject :=
  z.object (Obj.of_entries [
    ("age", z.number |> z.min 1 |> z.max 120);
    ("gender", z.string |> z.min 1);
    ("sleep_duration", z.number |> z.min 0 |> z.max 24);
    ("stress_level", z.number |> z.min 1 |> z.max 10);
    ("daily_steps", z.number |> z.min 0);
    ("bmi_category", z.string |> z.min 1);
    ("blood_pressure", z.string |> z.min 1);
    ("heart_rate", z.number |> z.min 30 |> z.max 220);
    ("physical_activity", z.number |> z.min 0)
  ]).

Record PredictionResult := mkPredictionResult {
  predicted_quality : number;
  disorder_risk : string;
  top_drivers : list string;
  coach_tip : string;
  confidence : string;
  rule_override_flag : bool
}.

(** The form holds the same nine metrics as the daily log, and the
    object literal given to [predictionSchema.parse] is built the same
    way. *)
Record State := mkState {
  formData : DailyLog.FormData;
  prediction : option PredictionResult;   (* [None] is null *)
  isLoading : bool;
  errors : gmap string string;
  toasts : list Toast
}.

Definition setPrediction (p : option PredictionResult) : M State unit :=
  modify (fun st => mkState (formData st) p (isLoading st) (errors st) (toasts st)).
Definition setIsLoading (b : bool) : M State unit :=
  modify (fun st => mkState (formData st) (prediction st) b (errors st) (toasts st)).
Definition setErrors (e : gmap string string) : M State unit :=
  modify (fun st => mkState (formData st) (prediction st) (isLoading st) e (toasts st)).
Definition toast (t : Toast) : M State unit :=
  modify (fun st => mkState (formData st) (prediction st) (isLoading st) (errors st)
                            (toasts st ++ [t])%list).

Section handleSubmit.
Context `{Runtime}.

Definition handleSubmit (backend : Request -> FetchOutcome PredictionResult)
  : M (State * World) unit :=
  page (setIsLoading true);;
  page (setErrors ∅);;
  page (setPrediction None);;
  finally
    (try_catch
       (formData ← page (gets formData);
        validatedData ← Zod.parse predictionSchema
                          (VObject (DailyLog.literal (DailyLog.coerce formData)));
        user ← outside getUser;
        match user with
        | None =>
            page (toast {| title := "Authentication required";
                           description := "Please sign in to get predictions.";
                           variant := Some "destructive" |});;
            page (setIsLoading false)
        | Some _ =>
            result ← outside (apiClient.post backend "/predict" validatedData);
            page (setPrediction (Some result));;
            page (toast {| title := "Prediction generated! 🧠";
                           description := "Your sleep analysis is ready.";
                           variant := None |})
        end)
       (fun error =>
          match error with
          | ZodError errors => page (setErrors (DailyLog.fieldErrors errors))
          | _ =>
              let errorMessage := Error_message error in
              page (toast {| title := "Failed to generate prediction";
                             description := errorMessage;
                             variant := Some "destructive" |})
          end))
    (page (setIsLoading false)).
End handleSubmit.
End Predict.

(** ** src/pages/Dashboard.tsx: what the page shows *)

Module DashboardView.

(** The three branches of the returned JSX: the spinner, the "No Sleep
    Data Yet" card, or the summary cards and charts, with the "Top Sleep
    Factors" card only when there are drivers to list. *)
Inductive Panel :=
| Spinner
| NoSleepDataYet
| Charts (topSleepFactors : bool).

Definition render (st : Dashboard.State) : Panel :=
  if Dashboard.isLoading st then Spinner
  else
    let logCount := length (Dashboard.logs st) in
    if (logCount =? 0)%nat then NoSleepDataYet
    else Charts (0 <? length (Dashboard.topDrivers st))%nat.

End DashboardView.

(** ** src/components/TipFeedback.tsx *)

Module TipFeedback.

(** The row given to [supabase.from("tip_feedback").insert]. *)
Record Row := mkRow {
  user_id : string;
  followed : bool;
  acknowledged : bool
}.

(** How the insert ends: no error, an error object, or a rejection. *)
Inductive InsertOutcome :=
| Inserted
| Refused (message : string)
| Rejected (reason : exn).

(** The component's state, and next to it the rows sent to the table
    and the number of calls made to the parent's callback. *)
Record State := mkState {
  isSubmitting : bool;
  isSubmitted : bool;
  toasts : list Toast;
  sent : list Row;
  notified : nat
}.

Definition initialState : State := mkState false false [] [] 0.

Definition setIsSubmitting (b : bool) : M State unit :=
  modify (fun st => mkState b (isSubmitted st) (toasts st) (sent st) (notified st)).
Definition setIsSubmitted (b : bool) : M State unit :=
  modify (fun st => mkState (isSubmitting st) b (toasts st) (sent st) (notified st)).
Definition toast (t : Toast) : M State unit :=
  modify (fun st => mkState (isSubmitting st) (isSubmitted st)
                            (toasts st ++ [t])%list (sent st) (notified st)).

(** [supabase.from("tip_feedback").insert([row])] against a table that
    answers [table row]: the error of the answer, [None] for null. *)
Definition insert (table : Row -> InsertOutcome) (row : Row)
  : M State (option string) :=
  fun st =>
    let st' := mkState (isSubmitting st) (isSubmitted st) (toasts st)
                       (sent st ++ [row])%list (notified st) in
    match table row with
    | Inserted => (Normal None, st')
    | Refused message => (Normal (Some message), st')
    | Rejected reason => (Throw reason, st')
    end.

(** [onFeedbackSubmitted()]: the call is counted; the parent's handler
    returns or throws as [callback] says. *)
Definition call (callback : Completion unit) : M State unit :=
  fun st =>
    (callback, mkState (isSubmitting st) (isSubmitted st) (toasts st)
                       (sent st) (S (notified st))).

(** [followed] and [acknowledged] are the two checkboxes; the [tipId]
    prop is not read by the handler. *)
Definition handleSubmit (followed acknowledged : bool)
    (onFeedbackSubmitted : option (Completion unit))
    (table : Row -> InsertOutcome) : M (State * World) unit :=
  page (setIsSubmitting true);;
  finally
    (try_catch
       (user ← outside getUser;
        match user with
        | None =>
            page (toast {| title := "Authentication required";
                           description := "Please sign in to provide feedback.";
                           variant := Some "destructive" |})
        | Some user =>
            error ← page (insert table {| user_id := id user;
                                          followed := followed;
                                          acknowledged := acknowledged |});
            match error with
            | Some message =>
                page (toast {| title := "Failed to save feedback";
                               description := message;
                               variant := Some "destructive" |})
            | None =>
                page (setIsSubmitted true);;
                page (toast {| title := "Feedback submitted! 📝";
                               description := "Thank you for helping us improve your experience.";
                               variant := None |});;
                match onFeedbackSubmitted with
                | Some callback => page (call callback)
                | None => mret tt
                end
            end
        end)
       (fun error =>
          page (toast {| title := "Failed to save feedback";
                         description := "An unexpected error occurred.";
                         variant := Some "destructive" |})))
    (page (setIsSubmitting false)).
End TipFeedback.



(** ** Vocabulary of the statements about the API client *)

Section apiClient_vocabulary.
Context `{Runtime}.

(** The request [post] builds for a given credential. *)
Definition post_request (token : option string) (endpoint : string)
    (body : object value) : Request :=
  {| method := POST;
     target := Href (API_URL ++ endpoint);
     headers := [("Content-Type", "application/json")];
     json_body := Some (Obj.set "token" (apiClient.token_value token)
                                (Obj.spread body)) |}.

(** The request [get] builds once it holds a credential, a URL and the
    text of every parameter. *)
Definition get_request (token : string) (url : URL)
    (params : option (object value)) : Request :=
  {| method := GET;
     target := Serialized
       (mkURL (href url)
          (searchParams url ++
             ("token", token) ::
             map (fun kv => (kv.1, ToString kv.2)) (default [] params))%list);
     headers := [];
     json_body := None |}.

(** The parameters [get] can write into a query: [String] returns on
    the value of each.  For the others no request is made. *)
Definition serialisable (params : option (object value)) : bool :=
  forallb (fun kv => convertible kv.2) (default [] params).

(** What is left of [post] and [get] once the response is there. *)
Definition settle {T} (response : Response T) : M World T :=
  match response with
  | Failure b =>
      errorData ← json b;
      detail ← get_property errorData "detail";
      message ← String_ (apiClient.or_else detail
                           (VString "API request failed"));
      throw (JsError PlainError message)
  | Success b => json b
  end.

(** The [detail] a parsed error body carries, if any. *)
Definition backend_detail (errorData : value) : option value :=
  match errorData with
  | VObject props => Obj.get "detail" props
  | _ => None
  end.

(** The message the specification promises for a non-success response:
    the detail string when there is one, else the generic text. *)
Definition promised_message (b : Body value) : string :=
  match b with
  | Parsed errorData =>
      match backend_detail errorData with
      | Some (VString s) => s
      | _ => "API request failed"
      end
  | Unparseable _ => "API request failed"
  end.

(** The message of the amended statement: the detail string when it is
    there and not empty, else the generic text. *)
Definition normalised_message (detail : option string) : string :=
  match detail with
  | Some s => if bool_decide (s = "") then "API request failed" else s
  | None => "API request failed"
  end.
End apiClient_vocabulary.

(** ** Vocabulary of the statements about the driver ranking *)

Definition by_count_desc (x y : string * Z) : Prop := (y.2 <= x.2)%Z.

(** [sorted] is [order] sorted by descending count, entries of equal
    count keeping the relative order they have in [order]. *)
Definition stable_sort_desc (order sorted : list (string * Z)) : Prop :=
  sorted ≡ₚ order
  ∧ StronglySorted by_count_desc sorted
  ∧ ∀ c : Z, filter (fun e => e.2 = c) sorted = filter (fun e => e.2 = c) order.

(** [shown] is the top five of [order] ranked that way. *)
Definition ranks (order : list (string * Z)) (shown : list Dashboard.Driver)
  : Prop :=
  ∃ sorted,
    stable_sort_desc order sorted
    ∧ shown = map (fun e => Dashboard.mkDriver e.1 e.2) (take 5 sorted).

(** ** Vocabulary of the statements about the dashboard refresh *)

Section dashboard_vocabulary.
Context `{Runtime}.

(** The parameters both requests of a refresh are made with. *)
Definition window (st : Dashboard.State) : option (object value) :=
  Some (Obj.of_entries [("days", VNumber (parseInt (Dashboard.days st)))]).

(** The notification of a failed refresh. *)
Definition load_failure (reason : exn) : Toast :=
  {| title := "Failed to load dashboard";
     description := Error_message reason;
     variant := Some "destructive" |}.

(** The page after a failed refresh: nothing but the loading flag and
    the notifications has changed. *)
Definition after_failure (st : Dashboard.State) (reason : exn)
  : Dashboard.State :=
  Dashboard.mkState (Dashboard.logs st) (Dashboard.averages st)
    (Dashboard.topDrivers st) false (Dashboard.days st)
    (Dashboard.toasts st ++ [load_failure reason])%list.

Definition rejected {A} (r : Completion A) : Prop := ∃ reason, r = Throw reason.
End dashboard_vocabulary.

(** ** Vocabulary of the statements about validation

    The documented constraints of the nine metrics, written down
    independently of the schema: each metric must be a number (or a
    string), then within its bounds (or not empty). *)

Inductive Constraint :=
| a_number
| at_least (lo : Z)
| at_most (hi : Z)
| a_string
| not_empty.

Definition documented : list (string * list Constraint) := [
    ("age", [a_number; at_least 1; at_most 120]);
    ("gender", [a_string; not_empty]);
    ("sleep_duration", [a_number; at_least 0; at_most 24]);
    ("stress_level", [a_number; at_least 1; at_most 10]);
    ("daily_steps", [a_number; at_least 0]);
    ("bmi_category", [a_string; not_empty]);
    ("blood_pressure", [a_string; not_empty]);
    ("heart_rate", [a_number; at_least 30; at_most 220]);
    ("physical_activity", [a_number; at_least 0])
  ].

Definition meets (c : Constraint) (v : value) : bool :=
  match c, v with
  | a_number, VNumber n => negb (isNaN n)
  | at_least lo, VNumber (Finite q) => Qle_bool (inject_Z lo) q
  | at_least lo, VNumber (Infinity negative) => negb negative
  | at_most hi, VNumber (Finite q) => Qle_bool q (inject_Z hi)
  | at_most hi, VNumber (Infinity negative) => negative
  | a_string, VString _ => true
  | not_empty, VString s => negb (bool_decide (s = ""))
  | _, _ => false
  end.

(** The first constraint of a list that a value fails. *)
Definition first_failure (cs : list Constraint) (v : value) : option Constraint :=
  List.find (fun c => negb (meets c v)) cs.

(** What is reported for a failed constraint. *)
Definition report (c : Constraint) (v : value) (path : list string) : ZodIssue :=
  match c with
  | a_number => Zod.invalid_type_issue Zod.pt_number (Zod.getParsedType v) path
  | at_least lo => Zod.too_small_number lo path
  | at_most hi => Zod.too_big_number hi path
  | a_string => Zod.invalid_type_issue Zod.pt_string (Zod.getParsedType v) path
  | not_empty => Zod.too_small_string 1 path
  end.

(** The value of a metric, by name. *)
Definition field (m : DailyLog.HealthMetricsInput) (name : string) : value :=
  default VUndefined (Obj.get name (DailyLog.literal m)).

(** The message of the first failing constraint of a metric; [None] if
    the metric meets its constraints, or if there is no such metric. *)
Definition first_complaint (m : DailyLog.HealthMetricsInput) (name : string)
  : option string :=
  cs ← Obj.get name documented;
  c ← first_failure cs (field m name);
  Some (message (report c (field m name) [name])).

(** What the parser of one metric returns, given the first constraint
    the value fails: a wrong type aborts, a violated bound is reported
    and the value kept. *)
Definition outcome (verdict : option Constraint) (v : value) (path : list string)
  : Zod.SyncParseReturn value * list ZodIssue :=
  match verdict with
  | None => (Zod.OK v, [])
  | Some c =>
      (match c with
       | a_number | a_string => Zod.INVALID
       | _ => Zod.DIRTY v
       end, [report c v path])
  end.

(** A schema entry checks what a documented entry says. *)
Definition fits (kt : string * Zod.ZodType) (kc : string * list Constraint)
  : Prop :=
  kt.1 = kc.1
  ∧ ∀ v, Zod._parse kt.2 [kt.1] v = outcome (first_failure kc.2 v) v [kt.1].

(** A metric is missing or out of range. *)
Definition offending (m : DailyLog.HealthMetricsInput) (name : string) : Prop :=
  is_Some (first_complaint m name).

Definition in_range (lo hi : Z) (n : number) : Prop :=
  match n with
  | Finite q => (inject_Z lo <= q)%Q ∧ (q <= inject_Z hi)%Q
  | _ => False
  end.

Definition not_below (lo : Z) (n : number) : Prop :=
  match n with
  | Finite q => (inject_Z lo <= q)%Q
  | Infinity negative => negative = false
  | NaN => False
  end.

(** All metrics present and within the documented ranges. *)
Definition within_documented_ranges (m : DailyLog.HealthMetricsInput) : Prop :=
  in_range 1 120 (DailyLog.age m)
  ∧ in_range 0 24 (DailyLog.sleep_duration m)
  ∧ (∃ n, DailyLog.stress_level m = Some n ∧ in_range 1 10 n)
  ∧ not_below 0 (DailyLog.daily_steps m)
  ∧ in_range 30 220 (DailyLog.heart_rate m)
  ∧ not_below 0 (DailyLog.physical_activity m)
  ∧ DailyLog.gender m ≠ ""
  ∧ DailyLog.bmi_category m ≠ ""
  ∧ DailyLog.blood_pressure m ≠ "".

(** ** A concrete runtime for the closed examples

    Decimal [parseInt]/[parseFloat] on digit strings, integers printed in
    decimal, every string accepted as a URL without query. *)

Module Example.
Definition digits (s : string) : number :=
  match s with
  | "" => NaN
  | _ => match Obj.digits_value s 0 with
         | Some n => of_Z (Z.of_N n)
         | None => NaN
         end
  end.

Definition print (n : number) : string :=
  match n with
  | NaN => "NaN"
  | Infinity true => "-Infinity"
  | Infinity false => "Infinity"
  | Finite q => pretty (Qnum q)
  end.

Definition browser : Runtime :=
  {| API_URL := "https://api.sleepwise.test";
     parseInt := digits;
     parseFloat := digits;
     Number_toString := print;
     new_URL := fun s => Some (mkURL s []);
     JSON_stringify := fun _ => "[]" |}.

Definition signed_in : World :=
  mkWorld (Some (mkSession "jwt")) (Some (mkUser "u1")) [].
Definition signed_out : World := mkWorld None None [].

(** A backend that gives the same answer to every request. *)
Definition answers {T} (r : Response T) : Request -> FetchOutcome T :=
  fun _ => Responded r.
End Example.

(** ** A runtime whose URL constructor is strict

    As [Example.browser], but [new URL] throws on a string that does not
    start with a scheme. *)

Module StrictExample.
Definition has_scheme (s : string) : bool :=
  String.prefix "http://" s || String.prefix "https://" s.

Definition browser (base : string) : Runtime :=
  {| API_URL := base;
     parseInt := Example.digits;
     parseFloat := Example.digits;
     Number_toString := Example.print;
     new_URL := fun s => if has_scheme s then Some (mkURL s []) else None;
     JSON_stringify := fun _ => "[]" |}.
End StrictExample.

(** ** Vocabulary of the statements about the forms *)

Section form_vocabulary.
Context `{Runtime}.

(** The notifications of the daily log. *)
Definition sign_in_to_log : Toast :=
  {| title := "Authentication required";
     description := "Please sign in to log your data.";
     variant := Some "destructive" |}.

Definition log_stored : Toast :=
  {| title := "Daily log stored successfully! 🌙";
     description := "Your sleep data has been recorded.";
     variant := None |}.

Definition log_failed (reason : exn) : Toast :=
  {| title := "Failed to save log";
     description := Error_message reason;
     variant := Some "destructive" |}.

(** The notifications of the prediction form. *)
Definition sign_in_to_predict : Toast :=
  {| title := "Authentication required";
     description := "Please sign in to get predictions.";
     variant := Some "destructive" |}.

Definition prediction_ready : Toast :=
  {| title := "Prediction generated! 🧠";
     description := "Your sleep analysis is ready.";
     variant := None |}.

Definition prediction_failed (reason : exn) : Toast :=
  {| title := "Failed to generate prediction";
     description := Error_message reason;
     variant := Some "destructive" |}.

(** The input a form holds, coerced and written as the object literal
    given to the schema. *)
Definition submitted (f : DailyLog.FormData) : object value :=
  DailyLog.literal (DailyLog.coerce f).
End form_vocabulary.

(** ** Vocabulary of the statements about the tip feedback *)

Definition sign_in_to_give_feedback : Toast :=
  {| title := "Authentication required";
     description := "Please sign in to provide feedback.";
     variant := Some "destructive" |}.

Definition feedback_submitted : Toast :=
  {| title := "Feedback submitted! 📝";
     description := "Thank you for helping us improve your experience.";
     variant := None |}.

Definition feedback_failed (message : string) : Toast :=
  {| title := "Failed to save feedback";
     description := message;
     variant := Some "destructive" |}.

(** * Properties *)

(** ** The API client *)

Section apiClient_facts.
Context `{Runtime}.

(** The credential the session holds, as [getAuthToken] computes it. *)
Lemma getAuthToken_run (w : World) :
  ∃ token, apiClient.getAuthToken w = (Normal token, emit AuthGetSession w).
Proof.
  unfold apiClient.getAuthToken, getSession, mbind, M_bind, mret, M_ret.
  eexists. reflexivity.
Qed.

Lemma requests_emit_fetch (w : World) (req : Request) :
  requests (emit (Fetch req) w) = (requests w ++ [req])%list.
Proof. unfold requests, emit. simpl. by rewrite omap_app. Qed.

Lemma requests_emit_session (w : World) :
  requests (emit AuthGetSession w) = requests w.
Proof. unfold requests, emit. simpl. rewrite omap_app. simpl. apply app_nil_r. Qed.

Lemma requests_emit_user (w : World) :
  requests (emit AuthGetUser w) = requests w.
Proof. unfold requests, emit. simpl. rewrite omap_app. simpl. apply app_nil_r. Qed.
End apiClient_facts.

(** ** Reading and writing properties *)

Section Obj_facts.
Context {V : Type}.
Implicit Types (o : object V) (k : string) (v : V).

Lemma has_true k o : Obj.has k o = true ↔ is_Some (Obj.get k o).
Proof. unfold Obj.has. by rewrite bool_decide_eq_true. Qed.

Lemma has_false k o : Obj.has k o = false ↔ Obj.get k o = None.
Proof.
  unfold Obj.has. rewrite bool_decide_eq_false.
  by rewrite eq_None_not_Some.
Qed.

Lemma get_replace_eq k v o :
  is_Some (Obj.get k o) -> Obj.get k (Obj.replace k v o) = Some v.
Proof.
  induction o as [|[k' w] o IH]; simpl.
  - by intros [? ?].
  - destruct (decide (k' = k)) as [->|Hne]; simpl.
    + by rewrite decide_True.
    + intros Hs. rewrite decide_False by done. by apply IH.
Qed.

Lemma get_replace_ne k k' v o :
  k ≠ k' -> Obj.get k' (Obj.replace k v o) = Obj.get k' o.
Proof.
  intros Hne. induction o as [|[k0 w] o IH]; simpl; [done|].
  destruct (decide (k0 = k)) as [->|Hne0]; simpl.
  - by rewrite !decide_False.
  - by rewrite IH.
Qed.

Lemma get_place_index_eq n k v o :
  Obj.get k o = None -> Obj.get k (Obj.place_index n k v o) = Some v.
Proof.
  induction o as [|[k0 w] o IH]; simpl.
  - by rewrite decide_True.
  - destruct (decide (k0 = k)) as [->|Hne]; [done|]. intros Hnone.
    destruct (Obj.array_index k0) as [m|]; [destruct (m <? n)%N|]; simpl;
      rewrite ?decide_True by done; try done.
    rewrite decide_False by done. by apply IH.
Qed.

Lemma get_place_index_ne n k k' v o :
  k ≠ k' -> Obj.get k' (Obj.place_index n k v o) = Obj.get k' o.
Proof.
  intros Hne. induction o as [|[k0 w] o IH]; simpl.
  - by rewrite decide_False.
  - destruct (Obj.array_index k0) as [m|]; [destruct (m <? n)%N|]; simpl;
      rewrite ?IH; try done; by rewrite (decide_False (P := k = k')).
Qed.

Lemma get_app k o o' :
  Obj.get k (o ++ o')%list =
    match Obj.get k o with Some x => Some x | None => Obj.get k o' end.
Proof.
  induction o as [|[k0 w] o IH]; simpl; [done|].
  by destruct (decide (k0 = k)).
Qed.

Lemma get_set_eq k v o : Obj.get k (Obj.set k v o) = Some v.
Proof.
  unfold Obj.set. destruct (Obj.has k o) eqn:Hhas.
  - apply get_replace_eq. by apply has_true.
  - apply has_false in Hhas.
    destruct (Obj.array_index k); [by apply get_place_index_eq|].
    rewrite get_app, Hhas. simpl. by rewrite decide_True.
Qed.

Lemma get_set_ne k k' v o :
  k ≠ k' -> Obj.get k' (Obj.set k v o) = Obj.get k' o.
Proof.
  intros Hne. unfold Obj.set. destruct (Obj.has k o).
  - by apply get_replace_ne.
  - destruct (Obj.array_index k); [by apply get_place_index_ne|].
    rewrite get_app. simpl. rewrite decide_False by done.
    by destruct (Obj.get k' o).
Qed.

Lemma get_None_keys k o : k ∉ o.*1 -> Obj.get k o = None.
Proof.
  induction o as [|[k0 w] o IH]; simpl; [done|].
  rewrite not_elem_of_cons. intros [Hne Hnot].
  rewrite decide_False by done. by apply IH.
Qed.

(** Creating the properties of a list with distinct keys one after the
    other: each key reads as the list gives it. *)
Lemma get_foldl_set k (l : list (string * V)) o :
  NoDup l.*1 ->
  Obj.get k (foldl (fun o kv => Obj.set kv.1 kv.2 o) o l) =
    match Obj.get k l with Some x => Some x | None => Obj.get k o end.
Proof.
  revert o. induction l as [|[k0 w] l IH]; intros o; simpl; [done|].
  rewrite NoDup_cons. intros [Hnot Hnodup].
  rewrite IH by done.
  destruct (decide (k0 = k)) as [->|Hne].
  - by rewrite (get_None_keys k l), get_set_eq.
  - by rewrite get_set_ne.
Qed.

Lemma get_spread k o : NoDup o.*1 -> Obj.get k (Obj.spread o) = Obj.get k o.
Proof.
  intros Hnodup. unfold Obj.spread, Obj.of_entries, Obj.entries.
  rewrite get_foldl_set by done. by destruct (Obj.get k o).
Qed.
End Obj_facts.

Section apiClient_requests.
Context `{Runtime}.

Lemma String_convertible {S} (v : value) (s : S) :
  convertible v = true -> String_ v s = (Normal (ToString v), s).
Proof. intros Hv. unfold String_. by rewrite Hv. Qed.

Lemma String_throws {S} (v : value) (s : S) :
  convertible v = false ->
  String_ v s
    = (Throw (JsError TypeError "Cannot convert object to primitive value"), s).
Proof. intros Hv. unfold String_. by rewrite Hv. Qed.

Lemma append_all {S} (url : URL) (l : list (string * value)) (s : S) :
  forallb (fun kv => convertible kv.2) l = true ->
  forEach l (fun url kv => v ← String_ kv.2; mret (apiClient.append url kv.1 v))
          url s =
    (Normal (mkURL (href url)
               (searchParams url ++ map (fun kv => (kv.1, ToString kv.2)) l)%list),
     s).
Proof.
  revert url. induction l as [|kv l IH]; intros url Hl; simpl.
  - rewrite app_nil_r. by destruct url.
  - simpl in Hl. apply andb_prop in Hl as [Hkv Hl].
    unfold mbind at 1, M_bind at 1. unfold mbind at 1, M_bind at 1.
    rewrite (String_convertible _ _ Hkv). unfold mret at 1, M_ret at 1.
    rewrite (IH _ Hl). simpl. by rewrite <- app_assoc.
Qed.

Lemma append_throws {S} (url : URL) (l : list (string * value)) (s : S) :
  forallb (fun kv => convertible kv.2) l = false ->
  forEach l (fun url kv => v ← String_ kv.2; mret (apiClient.append url kv.1 v))
          url s
    = (Throw (JsError TypeError "Cannot convert object to primitive value"), s).
Proof.
  revert url. induction l as [|kv l IH]; intros url Hl; simpl.
  - discriminate Hl.
  - simpl in Hl. unfold mbind at 1, M_bind at 1. unfold mbind at 1, M_bind at 1.
    destruct (convertible kv.2) eqn:Hkv.
    + rewrite (String_convertible _ _ Hkv). unfold mret at 1, M_ret at 1.
      by apply IH.
    + by rewrite (String_throws _ _ Hkv).
Qed.

Lemma settle_world {T} (response : Response T) (w : World) :
  (settle response w).2 = w.
Proof.
  destruct response as [[why|data]|[why|errorData]]; try reflexivity.
  destruct errorData as [| | | | | |props]; try reflexivity.
  unfold settle, json, get_property, mbind, M_bind, mret, M_ret, String_.
  by destruct (convertible _).
Qed.

Lemma post_run {T} (backend : Request -> FetchOutcome T) endpoint body w token :
  (apiClient.getAuthToken w).1 = Normal token ->
  apiClient.post backend endpoint body w =
    (fetch backend (post_request token endpoint body) ≫= settle)
      (emit AuthGetSession w).
Proof.
  intros Htoken. destruct (getAuthToken_run w) as [token' Hrun].
  rewrite Hrun in Htoken. simpl in Htoken. injection Htoken as ->.
  unfold apiClient.post, mbind, M_bind at 1. rewrite Hrun.
  reflexivity.
Qed.

Lemma get_run {T} (backend : Request -> FetchOutcome T) endpoint params w
    token url :
  (apiClient.getAuthToken w).1 = Normal (Some token) ->
  new_URL (API_URL ++ endpoint) = Some url ->
  serialisable params = true ->
  apiClient.get backend endpoint params w =
    (fetch backend (get_request token url params) ≫= settle)
      (emit AuthGetSession w).
Proof.
  intros Htoken Hurl Hparams. destruct (getAuthToken_run w) as [token' Hrun].
  rewrite Hrun in Htoken. simpl in Htoken. injection Htoken as ->.
  unfold apiClient.get. unfold mbind at 1, M_bind at 1. rewrite Hrun, Hurl.
  unfold mbind at 1, M_bind at 1. unfold get_request.
  destruct params as [params|].
  - unfold Obj.entries. rewrite (append_all _ _ _ Hparams).
    cbn [href searchParams apiClient.append default].
    by rewrite <- app_assoc.
  - unfold mret at 1, M_ret at 1. cbn [href searchParams apiClient.append default map].
    reflexivity.
Qed.

Lemma get_unserialisable_run {T} (backend : Request -> FetchOutcome T)
    endpoint params w token url :
  (apiClient.getAuthToken w).1 = Normal (Some token) ->
  new_URL (API_URL ++ endpoint) = Some url ->
  serialisable params = false ->
  apiClient.get backend endpoint params w =
    (Throw (JsError TypeError "Cannot convert object to primitive value"),
     emit AuthGetSession w).
Proof.
  intros Htoken Hurl Hparams. destruct (getAuthToken_run w) as [token' Hrun].
  rewrite Hrun in Htoken. simpl in Htoken. injection Htoken as ->.
  unfold apiClient.get. unfold mbind at 1, M_bind at 1. rewrite Hrun, Hurl.
  unfold mbind at 1, M_bind at 1.
  destruct params as [params|]; [|discriminate Hparams].
  unfold Obj.entries. by rewrite (append_throws _ _ _ Hparams).
Qed.

Lemma get_unserialisable_sends_nothing {T} (backend : Request -> FetchOutcome T)
    endpoint params w token url :
  (apiClient.getAuthToken w).1 = Normal (Some token) ->
  new_URL (API_URL ++ endpoint) = Some url ->
  serialisable params = false ->
  requests (apiClient.get backend endpoint params w).2 = requests w.
Proof.
  intros Htoken Hurl Hparams.
  rewrite (get_unserialisable_run backend endpoint params w token url
             Htoken Hurl Hparams).
  apply requests_emit_session.
Qed.

Lemma fetch_settle_world {T} (backend : Request -> FetchOutcome T) req w :
  ((fetch backend req ≫= settle) w).2 = emit (Fetch req) w.
Proof.
  unfold mbind, M_bind, fetch.
  destruct (backend req) as [why|response]; [done|].
  apply settle_world.
Qed.
End apiClient_requests.

Lemma get_no_token_run `{Runtime} {T} (backend : Request -> FetchOutcome T)
    (endpoint : string) (params : option (object value)) (w : World) :
  (apiClient.getAuthToken w).1 = Normal None ->
  apiClient.get backend endpoint params w =
    (Throw (JsError PlainError "Authentication token not found."),
     emit AuthGetSession w).
Proof.
  intros Hnone.
  destruct (getAuthToken_run w) as [token Htoken].
  rewrite Htoken in Hnone. simpl in Hnone.
  injection Hnone as ->.
  unfold apiClient.get, mbind, M_bind at 1. by rewrite Htoken.
Qed.

(** C1. A [get] issued while the session holds no credential throws the
    missing-credential error at once: the only outside call is the read
    of the session, and no request reaches the network, whatever the
    endpoint, the parameters and the backend. *)
Theorem get_without_credential `{Runtime} {T}
    (backend : Request -> FetchOutcome T) (endpoint : string)
    (params : option (object value)) (w : World) :
  (apiClient.getAuthToken w).1 = Normal None ->
  apiClient.get backend endpoint params w =
    (Throw (JsError PlainError "Authentication token not found."),
     emit AuthGetSession w)
  ∧ requests (apiClient.get backend endpoint params w).2 = requests w.
Proof.
  intros Hnone.
  rewrite (get_no_token_run backend endpoint params w Hnone).
  split; [reflexivity|]. apply requests_emit_session.
Qed.

Lemma get_without_credential_witness :
  (apiClient.getAuthToken Example.signed_out).1 = Normal None
  ∧ requests (@apiClient.get Example.browser value
                (Example.answers (Success (Parsed VNull)))
                "/dashboard/series"
                (Some [("days", VNumber (of_Z 7))]) Example.signed_out).2 = [].
Proof.
  split; [reflexivity|].
  apply (@get_without_credential Example.browser value
           (Example.answers (Success (Parsed VNull))) "/dashboard/series"
           (Some [("days", VNumber (of_Z 7))]) Example.signed_out).
  reflexivity.
Defined.

(** C3. [post] carries the credential inside the JSON body, as the
    [token] property merged into the caller's payload, and sends it to
    the bare endpoint; [get] carries it as the [token] query entry,
    followed by every supplied parameter, and sends no body.  A [get]
    whose parameters hold a value that [String] cannot convert sends
    nothing at all. *)
Theorem credential_transport `{Runtime} {T}
    (backend : Request -> FetchOutcome T) (endpoint : string) (w : World) :
  (∀ (body : object value) (token : option string),
      (apiClient.getAuthToken w).1 = Normal token ->
      NoDup body.*1 ->
      ∃ sent payload,
        requests (apiClient.post backend endpoint body w).2
          = (requests w ++ [sent])%list
        ∧ method sent = POST
        ∧ target sent = Href (API_URL ++ endpoint)
        ∧ json_body sent = Some payload
        ∧ Obj.get "token" payload = Some (apiClient.token_value token)
        ∧ ∀ k, k ≠ "token" -> Obj.get k payload = Obj.get k body)
  ∧
  (∀ (params : option (object value)) (token : string) (url : URL),
      (apiClient.getAuthToken w).1 = Normal (Some token) ->
      new_URL (API_URL ++ endpoint) = Some url ->
      if serialisable params then
        ∃ sent,
          requests (apiClient.get backend endpoint params w).2
            = (requests w ++ [sent])%list
          ∧ method sent = GET
          ∧ json_body sent = None
          ∧ target sent =
              Serialized
                (mkURL (href url)
                   (searchParams url ++
                      ("token", token) ::
                      map (fun kv => (kv.1, ToString kv.2)) (default [] params))%list)
      else
        requests (apiClient.get backend endpoint params w).2 = requests w).
Proof.
  split.
  - intros body token Htoken Hnodup.
    exists (post_request token endpoint body).
    eexists. rewrite (post_run backend endpoint body w token Htoken).
    rewrite fetch_settle_world, requests_emit_fetch, requests_emit_session.
    repeat split.
    + apply get_set_eq.
    + intros k Hk. rewrite get_set_ne by done. by apply get_spread.
  - intros params token url Htoken Hurl.
    destruct (serialisable params) eqn:Hparams.
    + exists (get_request token url params).
      rewrite (get_run backend endpoint params w token url Htoken Hurl Hparams).
      rewrite fetch_settle_world, requests_emit_fetch, requests_emit_session.
      by repeat split.
    + by apply (get_unserialisable_sends_nothing _ _ _ _ token url).
Qed.

Lemma credential_transport_witness :
  (∃ sent payload,
      requests (@apiClient.post Example.browser value
                  (Example.answers (Success (Parsed VNull))) "/log"
                  [("age", VNumber (of_Z 30))] Example.signed_in).2 = [sent]
      ∧ json_body sent = Some payload
      ∧ Obj.get "token" payload = Some (VString "jwt"))
  ∧
  (∃ sent,
      requests (@apiClient.get Example.browser value
                  (Example.answers (Success (Parsed VNull))) "/dashboard/series"
                  (Some [("days", VNumber (of_Z 7))]) Example.signed_in).2 = [sent]
      ∧ target sent =
          Serialized (mkURL "https://api.sleepwise.test/dashboard/series"
                            [("token", "jwt"); ("days", "7")])).
Proof.
  destruct (@credential_transport Example.browser value
              (Example.answers (Success (Parsed VNull))) "/log"
              Example.signed_in) as [Hpost _].
  destruct (@credential_transport Example.browser value
              (Example.answers (Success (Parsed VNull))) "/dashboard/series"
              Example.signed_in) as [_ Hget].
  split.
  - destruct (Hpost [("age", VNumber (of_Z 30))] (Some "jwt"))
      as (sent & payload & Hsent & _ & _ & Hbody & Htok & _).
    + reflexivity.
    + apply NoDup_singleton.
    + exists sent, payload. auto.
  - destruct (Hget (Some [("days", VNumber (of_Z 7))]) "jwt"
                (mkURL "https://api.sleepwise.test/dashboard/series" [])
                eq_refl eq_refl)
      as (sent & Hsent & _ & _ & Htarget).
    exists sent. auto.
Defined.

Section apiClient_results.
Context `{Runtime}.

Lemma fetch_settle_responded {T} (backend : Request -> FetchOutcome T) req r w :
  backend req = Responded r ->
  (fetch backend req ≫= settle) w = settle r (emit (Fetch req) w).
Proof. intros Hr. unfold mbind, M_bind, fetch. by rewrite Hr. Qed.

(** A parsed error body other than null: the thrown message is the
    detail if it is truthy, the generic text otherwise. *)
Lemma settle_failure_parsed {T} (errorData : value) (w : World) :
  errorData ≠ VNull -> errorData ≠ VUndefined ->
  convertible (apiClient.or_else (default VUndefined (backend_detail errorData))
                                 (VString "API request failed")) = true ->
  settle (T := T) (Failure (Parsed errorData)) w =
    (Throw (JsError PlainError
              (ToString (apiClient.or_else
                           (default VUndefined (backend_detail errorData))
                           (VString "API request failed")))), w).
Proof.
  intros Hnull Hundef Hdetail.
  destruct errorData as [| | | | | |props]; try done.
  unfold settle, json, get_property, mbind, M_bind, mret, M_ret, String_.
  unfold backend_detail in Hdetail. by rewrite Hdetail.
Qed.

(** A detail that [String] cannot convert: the TypeError of the
    conversion is what is thrown. *)
Lemma settle_failure_unconvertible {T} (errorData : value) (w : World) :
  convertible (apiClient.or_else (default VUndefined (backend_detail errorData))
                                 (VString "API request failed")) = false ->
  settle (T := T) (Failure (Parsed errorData)) w =
    (Throw (JsError TypeError "Cannot convert object to primitive value"), w).
Proof.
  intros Hdetail.
  destruct errorData as [| | | | | |props]; try discriminate Hdetail.
  unfold settle, json, get_property, mbind, M_bind, mret, M_ret, String_.
  unfold backend_detail in Hdetail. by rewrite Hdetail.
Qed.

(** A detail that is a string or absent is converted. *)
Lemma detail_convertible (detail : option string) :
  convertible (apiClient.or_else (default VUndefined (VString <$> detail))
                                 (VString "API request failed")) = true.
Proof.
  destruct detail as [s|]; [|reflexivity]. unfold apiClient.or_else. simpl.
  by destruct (bool_decide (s = "")).
Qed.

Lemma settle_failure_unparseable {T} (why : string) (w : World) :
  settle (T := T) (Failure (Unparseable why)) w =
    (Throw (JsError SyntaxError why), w).
Proof. reflexivity. Qed.

(** The message thrown for a detail that is a string or absent. *)
Lemma detail_message (detail : option string) :
  ToString (apiClient.or_else (default VUndefined (VString <$> detail))
                              (VString "API request failed")) =
    normalised_message detail.
Proof.
  destruct detail as [s|]; [|reflexivity]. unfold apiClient.or_else. simpl.
  by destruct (bool_decide (s = "")).
Qed.
End apiClient_results.

(** C10. [post] has no credential check: with no active credential it
    still sends its request, the [token] property of the JSON body being
    null, and returns what the backend answers; in the same world [get]
    throws before any request is sent. *)
Theorem post_without_credential `{Runtime} {T}
    (backend : Request -> FetchOutcome T) (endpoint : string)
    (body : object value) (w : World) :
  (apiClient.getAuthToken w).1 = Normal None ->
  (∃ sent payload,
      requests (apiClient.post backend endpoint body w).2
        = (requests w ++ [sent])%list
      ∧ method sent = POST
      ∧ json_body sent = Some payload
      ∧ Obj.get "token" payload = Some VNull
      ∧ ∀ data, backend sent = Responded (Success (Parsed data)) ->
                (apiClient.post backend endpoint body w).1 = Normal data)
  ∧
  (∀ params,
      (apiClient.get backend endpoint params w).1
        = Throw (JsError PlainError "Authentication token not found.")
      ∧ requests (apiClient.get backend endpoint params w).2 = requests w).
Proof.
  intros Hnone. split.
  - exists (post_request None endpoint body). eexists.
    rewrite (post_run backend endpoint body w None Hnone).
    rewrite fetch_settle_world, requests_emit_fetch, requests_emit_session.
    repeat split.
    + apply get_set_eq.
    + intros data Hdata.
      by rewrite (fetch_settle_responded _ _ _ _ Hdata).
  - intros params. rewrite (get_no_token_run backend endpoint params w Hnone).
    split; [reflexivity|]. apply requests_emit_session.
Qed.

Lemma post_without_credential_witness :
  ∃ sent payload,
    requests (@apiClient.post Example.browser value
                (Example.answers (Success (Parsed (VString "stored")))) "/log"
                [("age", VNumber (of_Z 30))] Example.signed_out).2 = [sent]
    ∧ json_body sent = Some payload
    ∧ Obj.get "token" payload = Some VNull
    ∧ (@apiClient.post Example.browser value
         (Example.answers (Success (Parsed (VString "stored")))) "/log"
         [("age", VNumber (of_Z 30))] Example.signed_out).1
      = Normal (VString "stored").
Proof.
  destruct (@post_without_credential Example.browser value
              (Example.answers (Success (Parsed (VString "stored")))) "/log"
              [("age", VNumber (of_Z 30))] Example.signed_out eq_refl)
    as [(sent & payload & Hsent & _ & Hbody & Htoken & Hresult) _].
  exists sent, payload.
  split; [exact Hsent|]. split; [exact Hbody|]. split; [exact Htoken|].
  by apply Hresult.
Defined.

(** C2, as stated, fails.  A non-success response whose body is not
    parseable JSON makes [post] and [get] reject with the parse failure
    of [response.json()], not with the generic message; and a detail
    that is present but empty is replaced by the generic message. *)
Lemma error_message_not_as_promised :
  (@apiClient.post Example.browser value
     (Example.answers (Failure (Unparseable "Unexpected token '<'")))
     "/log" [] Example.signed_in).1
    = Throw (JsError SyntaxError "Unexpected token '<'")
  ∧ (@apiClient.get Example.browser value
       (Example.answers (Failure (Unparseable "Unexpected token '<'")))
       "/dashboard/series" None Example.signed_in).1
    = Throw (JsError SyntaxError "Unexpected token '<'")
  ∧ @Error_message Example.browser (JsError SyntaxError "Unexpected token '<'")
    ≠ promised_message (Unparseable "Unexpected token '<'")
  ∧ (@apiClient.post Example.browser value
       (Example.answers (Failure (Parsed (VObject [("detail", VString "")]))))
       "/log" [] Example.signed_in).1
    = Throw (JsError PlainError "API request failed")
  ∧ "API request failed"
    ≠ promised_message (Parsed (VObject [("detail", VString "")])).
Proof.
  split; [reflexivity|]. split; [reflexivity|]. split; [discriminate|].
  split; [reflexivity|discriminate].
Qed.

(** C2, amended. When a non-success response has a body that parses to a
    JSON value other than null, [post] and [get] throw an [Error] whose
    message is the backend's detail if that is a non-empty string, and
    the generic "API request failed" if the body carries no detail or an
    empty one.  (A [get] whose parameters [String] cannot convert makes
    no request, and so receives no response.) *)
Theorem error_normalisation `{Runtime} {T}
    (backend : Request -> FetchOutcome T) (errorData : value)
    (detail : option string) (endpoint : string) (w : World) :
  (∀ req, backend req = Responded (Failure (Parsed errorData))) ->
  errorData ≠ VNull -> errorData ≠ VUndefined ->
  backend_detail errorData = VString <$> detail ->
  (∀ body,
      (apiClient.post backend endpoint body w).1
        = Throw (JsError PlainError (normalised_message detail)))
  ∧ (∀ params token url,
        (apiClient.getAuthToken w).1 = Normal (Some token) ->
        new_URL (API_URL ++ endpoint) = Some url ->
        if serialisable params then
          (apiClient.get backend endpoint params w).1
            = Throw (JsError PlainError (normalised_message detail))
        else
          requests (apiClient.get backend endpoint params w).2 = requests w).
Proof.
  intros Hbackend Hnull Hundef Hdetail.
  pose proof (detail_convertible detail) as Hconvertible.
  rewrite <- detail_message, <- Hdetail. rewrite <- Hdetail in Hconvertible.
  split.
  - intros body. destruct (getAuthToken_run w) as [token Htoken].
    rewrite (post_run backend endpoint body w token) by by rewrite Htoken.
    rewrite (fetch_settle_responded _ _ _ _ (Hbackend _)).
    by rewrite settle_failure_parsed.
  - intros params token url Htoken Hurl.
    destruct (serialisable params) eqn:Hparams.
    + rewrite (get_run backend endpoint params w token url Htoken Hurl Hparams).
      rewrite (fetch_settle_responded _ _ _ _ (Hbackend _)).
      by rewrite settle_failure_parsed.
    + by apply (get_unserialisable_sends_nothing _ _ _ _ token url).
Qed.

Lemma error_normalisation_witness :
  (@apiClient.post Example.browser value
     (Example.answers
        (Failure (Parsed (VObject [("detail", VString "quota exceeded")]))))
     "/log" [] Example.signed_in).1
    = Throw (JsError PlainError "quota exceeded")
  ∧ (@apiClient.get Example.browser value
       (Example.answers (Failure (Parsed (VObject [("status", VNumber (of_Z 500))]))))
       "/dashboard/series" None Example.signed_in).1
    = Throw (JsError PlainError "API request failed").
Proof.
  split.
  - destruct (@error_normalisation Example.browser value
                (Example.answers
                   (Failure (Parsed (VObject [("detail", VString "quota exceeded")]))))
                (VObject [("detail", VString "quota exceeded")])
                (Some "quota exceeded") "/log" Example.signed_in)
      as [Hpost _]; [reflexivity|discriminate|discriminate|reflexivity|].
    apply Hpost.
  - destruct (@error_normalisation Example.browser value
                (Example.answers
                   (Failure (Parsed (VObject [("status", VNumber (of_Z 500))]))))
                (VObject [("status", VNumber (of_Z 500))])
                None "/dashboard/series" Example.signed_in)
      as [_ Hget]; [reflexivity|discriminate|discriminate|reflexivity|].
    apply (Hget None "jwt"
             (mkURL "https://api.sleepwise.test/dashboard/series" []));
      reflexivity.
Defined.

(** ** Sorting and the order of properties *)

Section sort_facts.
Implicit Types (x y : string * Z) (l : list (string * Z)).

Import Dashboard (by_count).

Lemma filter_all {A} (P : A -> Prop) `{!∀ a, Decision (P a)} (l : list A) :
  Forall P l -> filter P l = l.
Proof.
  induction 1 as [|a l Ha Hl IH]; [done|].
  by rewrite filter_cons_True, IH.
Qed.

Lemma sort_insert_perm x l : sort_insert by_count x l ≡ₚ x :: l.
Proof.
  induction l as [|y l IH]; simpl; [done|].
  unfold by_count at 1. destruct (0 <? y.2 - x.2)%Z; [|done].
  rewrite IH. apply Permutation_swap.
Qed.

Lemma Array_sort_perm l : Array_sort by_count l ≡ₚ l.
Proof.
  induction l as [|x l IH]; simpl; [done|].
  unfold Array_sort in *. simpl. by rewrite sort_insert_perm, IH.
Qed.

Lemma sort_insert_sorted x l :
  StronglySorted by_count_desc l ->
  StronglySorted by_count_desc (sort_insert by_count x l).
Proof.
  induction 1 as [|y l Hsorted IH Hall]; simpl.
  - repeat constructor.
  - unfold by_count at 1. destruct (0 <? y.2 - x.2)%Z eqn:Hcmp.
    + apply Z.ltb_lt in Hcmp. constructor; [done|].
      rewrite sort_insert_perm. constructor; [|done].
      unfold by_count_desc. lia.
    + apply Z.ltb_ge in Hcmp.
      constructor; [by constructor|].
      constructor; [unfold by_count_desc; lia|].
      eapply Forall_impl; [exact Hall|].
      intros z. unfold by_count_desc. lia.
Qed.

Lemma Array_sort_sorted l : StronglySorted by_count_desc (Array_sort by_count l).
Proof.
  induction l as [|x l IH]; [constructor|].
  by apply sort_insert_sorted.
Qed.

Lemma sort_insert_stable (c : Z) x l :
  filter (fun e => e.2 = c) (sort_insert by_count x l)
  = filter (fun e => e.2 = c) (x :: l).
Proof.
  induction l as [|y l IH]; simpl; [done|].
  unfold by_count at 1. destruct (0 <? y.2 - x.2)%Z eqn:Hcmp; [|done].
  apply Z.ltb_lt in Hcmp.
  rewrite !filter_cons, IH, filter_cons.
  repeat case_decide; try done; lia.
Qed.

Lemma Array_sort_stable (c : Z) l :
  filter (fun e => e.2 = c) (Array_sort by_count l) = filter (fun e => e.2 = c) l.
Proof.
  induction l as [|x l IH]; [done|].
  unfold Array_sort in *. simpl.
  by rewrite sort_insert_stable, !filter_cons, IH.
Qed.

Lemma Array_sort_stable_sort l : stable_sort_desc l (Array_sort by_count l).
Proof.
  split; [apply Array_sort_perm|].
  split; [apply Array_sort_sorted|].
  intros c. apply Array_sort_stable.
Qed.

(** Properties created one after the other under distinct keys, none of
    them an array index, are enumerated in creation order. *)
Lemma foldl_set_append {V} (l acc : list (string * V)) :
  NoDup (acc.*1 ++ l.*1) ->
  Forall (fun e => Obj.array_index e.1 = None) l ->
  foldl (fun o kv => Obj.set kv.1 kv.2 o) acc l = (acc ++ l)%list.
Proof.
  revert acc. induction l as [|[k v] l IH]; intros acc Hnodup Hkeys; simpl.
  - by rewrite app_nil_r.
  - apply Forall_cons in Hkeys as [Hk Hkeys]. simpl in Hk.
    assert (Obj.set k v acc = (acc ++ [(k, v)])%list) as ->.
    { unfold Obj.set. rewrite Hk.
      assert (Obj.has k acc = false) as ->; [|done].
      apply has_false, get_None_keys.
      apply NoDup_app in Hnodup as (_ & Hdisj & _).
      intros Hin. apply (Hdisj k Hin). simpl. left. }
    rewrite IH; [by rewrite <- app_assoc|by rewrite fmap_app, <- app_assoc|done].
Qed.

Lemma of_entries_insertion_order {V} (l : list (string * V)) :
  NoDup l.*1 ->
  Forall (fun e => Obj.array_index e.1 = None) l ->
  Obj.of_entries l = l.
Proof. intros Hnodup Hkeys. unfold Obj.of_entries. by rewrite foldl_set_append. Qed.
End sort_facts.

(** C4, as stated, fails: a mapping filled under the keys "10" then "2"
    with equal counts is enumerated "2" first, array indices coming in
    ascending numeric order whatever the insertion order, and the tie is
    broken that way. *)
Lemma ranking_not_by_insertion_order :
  Dashboard.formatDrivers (Obj.of_entries [("10", 5%Z); ("2", 5%Z)])
    = [Dashboard.mkDriver "2" 5; Dashboard.mkDriver "10" 5]
  ∧ ¬ ranks [("10", 5%Z); ("2", 5%Z)]
            (Dashboard.formatDrivers (Obj.of_entries [("10", 5%Z); ("2", 5%Z)])).
Proof.
  split; [reflexivity|].
  intros (sorted & (Hperm & _ & Hstable) & Hshown).
  assert (sorted = [("10", 5%Z); ("2", 5%Z)]) as ->; [|discriminate].
  pose proof (Hstable 5%Z) as Hfive.
  rewrite filter_all in Hfive; [exact Hfive|].
  rewrite Hperm. by repeat constructor.
Qed.

(** C4, amended. The formatted top-drivers list is the mapping's entries
    sorted by descending count, ties broken by the mapping's enumeration
    order (stable sort), truncated to five.  Enumeration order is
    insertion order when the keys are distinct and none is an array
    index; so for counts A:3, B:5, C:5, D:1 inserted in that order the
    top two are B:5 then C:5. *)
Theorem top_drivers_ranking :
  (∀ driver_counts : object Z,
      ranks (Obj.entries driver_counts) (Dashboard.formatDrivers driver_counts))
  ∧ (∀ inserted : list (string * Z),
        NoDup inserted.*1 ->
        Forall (fun e => Obj.array_index e.1 = None) inserted ->
        ranks inserted (Dashboard.formatDrivers (Obj.of_entries inserted)))
  ∧ take 2 (Dashboard.formatDrivers
              (Obj.of_entries [("A", 3%Z); ("B", 5%Z); ("C", 5%Z); ("D", 1%Z)]))
    = [Dashboard.mkDriver "B" 5; Dashboard.mkDriver "C" 5].
Proof.
  assert (∀ driver_counts : object Z,
             ranks (Obj.entries driver_counts)
                   (Dashboard.formatDrivers driver_counts)) as Hranks.
  { intros driver_counts.
    exists (Array_sort Dashboard.by_count (Obj.entries driver_counts)).
    split; [apply Array_sort_stable_sort|reflexivity]. }
  split; [exact Hranks|]. split; [|reflexivity].
  intros inserted Hnodup Hkeys.
  rewrite <- (of_entries_insertion_order inserted Hnodup Hkeys) at 1.
  apply Hranks.
Qed.

Lemma top_drivers_ranking_witness :
  ranks [("stress", 2%Z); ("steps", 4%Z)]
        (Dashboard.formatDrivers (Obj.of_entries [("stress", 2%Z); ("steps", 4%Z)])).
Proof.
  destruct top_drivers_ranking as (_ & Hinserted & _).
  apply Hinserted.
  - apply NoDup_cons. split; [|apply NoDup_singleton].
    rewrite list_elem_of_singleton. discriminate.
  - repeat constructor.
Defined.

(** ** The dashboard refresh *)

Section refresh_facts.
Context `{Runtime}.

(** One refresh, given how its two requests end. *)
Lemma fetchDashboardData_run (earliest : Side)
    (series : Request -> FetchOutcome Dashboard.SeriesData.t)
    (top_drivers : Request -> FetchOutcome Dashboard.DriversData.t)
    (st : Dashboard.State) (w w1 w2 : World)
    (first : Completion Dashboard.SeriesData.t)
    (second : Completion Dashboard.DriversData.t) :
  apiClient.get series "/dashboard/series" (window st) w = (first, w1) ->
  apiClient.get top_drivers "/dashboard/top-drivers" (window st) w1 = (second, w2) ->
  Dashboard.fetchDashboardData earliest series top_drivers (st, w) =
    (Normal tt,
     (match first, second with
      | Normal seriesData, Normal driversData =>
          Dashboard.mkState
            (Dashboard.SeriesData.logs seriesData)
            (Dashboard.SeriesData.averages seriesData)
            (Dashboard.formatDrivers (Dashboard.DriversData.driver_counts driversData))
            false (Dashboard.days st) (Dashboard.toasts st)
      | Throw reason, Normal _ | Normal _, Throw reason => after_failure st reason
      | Throw reason1, Throw reason2 =>
          after_failure st (match earliest with Left => reason1 | Right => reason2 end)
      end, w2)).
Proof.
  intros Hfirst Hsecond.
  unfold Dashboard.fetchDashboardData, finally, try_catch, mbind, M_bind,
    page, outside, Promise_all, window in *.
  simpl. rewrite Hfirst. simpl. rewrite Hsecond.
  by destruct first, second.
Qed.
End refresh_facts.

(** C7. If either of the two requests of a refresh fails, the page keeps
    its logs, averages and top drivers, and shows exactly one failure
    notification, carrying the reason of one failed request: the same
    outcome whether one request failed or both. *)
Theorem partial_failure_is_failure `{Runtime} (earliest : Side)
    (series : Request -> FetchOutcome Dashboard.SeriesData.t)
    (top_drivers : Request -> FetchOutcome Dashboard.DriversData.t)
    (st : Dashboard.State) (w w1 w2 : World)
    (first : Completion Dashboard.SeriesData.t)
    (second : Completion Dashboard.DriversData.t) :
  apiClient.get series "/dashboard/series" (window st) w = (first, w1) ->
  apiClient.get top_drivers "/dashboard/top-drivers" (window st) w1 = (second, w2) ->
  rejected first ∨ rejected second ->
  ∃ reason st',
    (first = Throw reason ∨ second = Throw reason)
    ∧ Dashboard.fetchDashboardData earliest series top_drivers (st, w)
      = (Normal tt, (st', w2))
    ∧ Dashboard.logs st' = Dashboard.logs st
    ∧ Dashboard.averages st' = Dashboard.averages st
    ∧ Dashboard.topDrivers st' = Dashboard.topDrivers st
    ∧ Dashboard.toasts st' = (Dashboard.toasts st ++ [load_failure reason])%list
    ∧ Dashboard.isLoading st' = false.
Proof.
  intros Hfirst Hsecond Hrejected.
  rewrite (fetchDashboardData_run earliest series top_drivers st w w1 w2
             first second Hfirst Hsecond).
  assert (∀ reason, first = Throw reason ∨ second = Throw reason ->
          ∃ reason' st',
            (first = Throw reason' ∨ second = Throw reason')
            ∧ (Normal tt, (after_failure st reason, w2))
              = (Normal tt, (st', w2))
            ∧ Dashboard.logs st' = Dashboard.logs st
            ∧ Dashboard.averages st' = Dashboard.averages st
            ∧ Dashboard.topDrivers st' = Dashboard.topDrivers st
            ∧ Dashboard.toasts st'
              = (Dashboard.toasts st ++ [load_failure reason'])%list
            ∧ Dashboard.isLoading st' = false) as Hfailed.
  { intros reason Hreason. exists reason, (after_failure st reason).
    split; [exact Hreason|]. by repeat split. }
  destruct first as [seriesData|reason1], second as [driversData|reason2].
  - destruct Hrejected as [[? ?]|[? ?]]; discriminate.
  - apply Hfailed. by right.
  - apply Hfailed. by left.
  - destruct earliest; apply Hfailed; [by left|by right].
Qed.

Lemma partial_failure_is_failure_witness :
  ∃ reason st',
    Dashboard.fetchDashboardData (H := Example.browser) Left
      (Example.answers
         (Success (Parsed (Dashboard.SeriesData.mk []
            (Dashboard.mkAverages (of_Z 7) (of_Z 8) (of_Z 3) (of_Z 9000))))))
      (Example.answers
         (Failure (Parsed (VObject [("detail", VString "quota exceeded")]))))
      (Dashboard.initialState, Example.signed_in)
      = (Normal tt, (st', reason.2))
    ∧ reason.1 = JsError PlainError "quota exceeded"
    ∧ Dashboard.averages st' = Dashboard.averages Dashboard.initialState
    ∧ length (Dashboard.toasts st') = 1%nat.
Proof.
  pose (w1 := emit (Fetch (@get_request Example.browser "jwt"
                  (mkURL "https://api.sleepwise.test/dashboard/series" [])
                  (@window Example.browser Dashboard.initialState)))
                (emit AuthGetSession Example.signed_in)).
  pose (w2 := emit (Fetch (@get_request Example.browser "jwt"
                  (mkURL "https://api.sleepwise.test/dashboard/top-drivers" [])
                  (@window Example.browser Dashboard.initialState)))
                (emit AuthGetSession w1)).
  destruct (@partial_failure_is_failure Example.browser Left
              (Example.answers
                 (Success (Parsed (Dashboard.SeriesData.mk []
                    (Dashboard.mkAverages (of_Z 7) (of_Z 8) (of_Z 3) (of_Z 9000))))))
              (Example.answers
                 (Failure (Parsed (VObject [("detail", VString "quota exceeded")]))))
              Dashboard.initialState Example.signed_in w1 w2
              (Normal (Dashboard.SeriesData.mk []
                 (Dashboard.mkAverages (of_Z 7) (of_Z 8) (of_Z 3) (of_Z 9000))))
              (Throw (JsError PlainError "quota exceeded")))
    as (reason & st' & Hreason & Hrun & _ & Haverages & _ & Htoasts & _).
  - reflexivity.
  - reflexivity.
  - right. by eexists.
  - exists (reason, w2), st'.
    split; [exact Hrun|]. split.
    + destruct Hreason as [Hreason|Hreason]; [discriminate|].
      by injection Hreason as <-.
    + split; [exact Haverages|]. by rewrite Htoasts.
Defined.

(** C8, as stated, fails.  The series request succeeds and its response
    carries averages, but the request for the top drivers fails: the
    page then shows the averages it had before, not those of the series
    response. *)
Lemma averages_withheld_when_top_drivers_fail :
  (@apiClient.get Example.browser _
     (Example.answers
        (Success (Parsed (Dashboard.SeriesData.mk []
           (Dashboard.mkAverages (of_Z 7) (of_Z 8) (of_Z 3) (of_Z 9000))))))
     "/dashboard/series" (@window Example.browser Dashboard.initialState)
     Example.signed_in).1
    = Normal (Dashboard.SeriesData.mk []
                (Dashboard.mkAverages (of_Z 7) (of_Z 8) (of_Z 3) (of_Z 9000)))
  ∧ Dashboard.averages
      (Dashboard.fetchDashboardData (H := Example.browser) Left
         (Example.answers
            (Success (Parsed (Dashboard.SeriesData.mk []
               (Dashboard.mkAverages (of_Z 7) (of_Z 8) (of_Z 3) (of_Z 9000))))))
         (fun _ => Unreachable "Failed to fetch")
         (Dashboard.initialState, Example.signed_in)).2.1
    = Dashboard.averages Dashboard.initialState
  ∧ Dashboard.averages Dashboard.initialState
    ≠ Dashboard.mkAverages (of_Z 7) (of_Z 8) (of_Z 3) (of_Z 9000).
Proof.
  split; [reflexivity|]. split; [reflexivity|]. discriminate.
Qed.

(** C8, amended. After a refresh whose two requests both succeed, the
    averages of the page are the [averages] object of the series
    response, as received, whatever the log entries beside it; after a
    refresh one of whose requests fails, be it only the one for the top
    drivers, the averages of the page are those it had before.  In
    neither case is anything computed from the log entries. *)
Theorem averages_pass_through `{Runtime} (earliest : Side)
    (series : Request -> FetchOutcome Dashboard.SeriesData.t)
    (top_drivers : Request -> FetchOutcome Dashboard.DriversData.t)
    (st : Dashboard.State) (w w1 w2 : World)
    (first : Completion Dashboard.SeriesData.t)
    (second : Completion Dashboard.DriversData.t) :
  apiClient.get series "/dashboard/series" (window st) w = (first, w1) ->
  apiClient.get top_drivers "/dashboard/top-drivers" (window st) w1 = (second, w2) ->
  ∃ st',
    Dashboard.fetchDashboardData earliest series top_drivers (st, w)
      = (Normal tt, (st', w2))
    ∧ (∀ seriesData driversData,
          first = Normal seriesData -> second = Normal driversData ->
          Dashboard.averages st' = Dashboard.SeriesData.averages seriesData
          ∧ Dashboard.logs st' = Dashboard.SeriesData.logs seriesData)
    ∧ (∀ reason,
          first = Throw reason ∨ second = Throw reason ->
          Dashboard.averages st' = Dashboard.averages st).
Proof.
  intros Hfirst Hsecond.
  rewrite (fetchDashboardData_run earliest series top_drivers st w w1 w2
             first second Hfirst Hsecond).
  eexists. split; [reflexivity|].
  destruct first as [seriesData|reason1], second as [driversData|reason2].
  - split.
    + by intros ? ? [= <-] [= <-].
    + by intros ? [[=]|[=]].
  - split; [by intros ? ? ? [=]|done].
  - split; [by intros ? ? [=]|done].
  - split; [by intros ? ? [=]|]. by destruct earliest.
Qed.

Lemma averages_pass_through_witness :
  ∃ st' w2,
    Dashboard.fetchDashboardData (H := Example.browser) Right
      (Example.answers
         (Success (Parsed (Dashboard.SeriesData.mk []
            (Dashboard.mkAverages (of_Z 7) (of_Z 8) (of_Z 3) (of_Z 9000))))))
      (Example.answers
         (Success (Parsed (Dashboard.DriversData.mk []
            (Obj.of_entries [("stress", 2%Z)])))))
      (Dashboard.initialState, Example.signed_in)
      = (Normal tt, (st', w2))
    ∧ Dashboard.averages st'
      = Dashboard.mkAverages (of_Z 7) (of_Z 8) (of_Z 3) (of_Z 9000).
Proof.
  pose (w1 := emit (Fetch (@get_request Example.browser "jwt"
                  (mkURL "https://api.sleepwise.test/dashboard/series" [])
                  (@window Example.browser Dashboard.initialState)))
                (emit AuthGetSession Example.signed_in)).
  pose (w2 := emit (Fetch (@get_request Example.browser "jwt"
                  (mkURL "https://api.sleepwise.test/dashboard/top-drivers" [])
                  (@window Example.browser Dashboard.initialState)))
                (emit AuthGetSession w1)).
  destruct (@averages_pass_through Example.browser Right
              (Example.answers
                 (Success (Parsed (Dashboard.SeriesData.mk []
                    (Dashboard.mkAverages (of_Z 7) (of_Z 8) (of_Z 3) (of_Z 9000))))))
              (Example.answers
                 (Success (Parsed (Dashboard.DriversData.mk []
                    (Obj.of_entries [("stress", 2%Z)])))))
              Dashboard.initialState Example.signed_in w1 w2
              (Normal (Dashboard.SeriesData.mk []
                 (Dashboard.mkAverages (of_Z 7) (of_Z 8) (of_Z 3) (of_Z 9000))))
              (Normal (Dashboard.DriversData.mk []
                 (Obj.of_entries [("stress", 2%Z)]))))
    as (st' & Hrun & Hboth & _).
  - reflexivity.
  - reflexivity.
  - exists st', w2. split; [exact Hrun|].
    by destruct (Hboth _ _ eq_refl eq_refl) as [-> _].
Defined.

(** ** Validation *)

Section number_facts.
Implicit Types (n : number) (lo hi : Z).

Lemma ltb_Qle_bool (q : Q) lo :
  (Qnum q <? lo * QDen q)%Z = negb (Qle_bool (inject_Z lo) q).
Proof. unfold Qle_bool. simpl. rewrite Z.mul_1_r. apply Z.ltb_antisym. Qed.

Lemma gtb_Qle_bool (q : Q) hi :
  (hi * QDen q <? Qnum q)%Z = negb (Qle_bool q (inject_Z hi)).
Proof. unfold Qle_bool. simpl. rewrite Z.mul_1_r. apply Z.ltb_antisym. Qed.

(** Below the lower bound of a non-empty range is not above the upper. *)
Lemma lt_Z_not_gt_Z n lo hi :
  (lo <= hi)%Z -> lt_Z n lo = true -> gt_Z n hi = false.
Proof.
  intros Hle. destruct n as [|negative|q]; simpl; [done|by intros ->|].
  rewrite Z.ltb_lt, Z.ltb_ge. intros Hlt.
  assert (hi * Z.pos (Qden q) >= lo * Z.pos (Qden q))%Z; [|lia].
  apply Z.le_ge, Z.mul_le_mono_nonneg_r; lia.
Qed.
End number_facts.

Section field_facts.
Implicit Types (k : string) (v : value).

Lemma parse_number_range k lo hi v :
  (lo <= hi)%Z ->
  Zod._parse (Zod.ZodNumber [Zod.min_check lo; Zod.max_check hi]) [k] v
  = outcome (first_failure [a_number; at_least lo; at_most hi] v) v [k].
Proof.
  intros Hle. destruct v as [| | |[|[]|q]| | |]; try reflexivity.
  unfold Zod._parse, first_failure. simpl.
  rewrite <- ltb_Qle_bool, <- gtb_Qle_bool.
  pose proof (lt_Z_not_gt_Z (Finite q) lo hi Hle) as Hboth. simpl in Hboth.
  destruct (Qnum q <? lo * QDen q)%Z; [by rewrite Hboth|].
  by destruct (hi * QDen q <? Qnum q)%Z.
Qed.

Lemma parse_number_min k lo v :
  Zod._parse (Zod.ZodNumber [Zod.min_check lo]) [k] v
  = outcome (first_failure [a_number; at_least lo] v) v [k].
Proof.
  destruct v as [| | |[|[]|q]| | |]; try reflexivity.
  unfold Zod._parse, first_failure. simpl.
  rewrite <- ltb_Qle_bool.
  by destruct (Qnum q <? lo * QDen q)%Z.
Qed.

Lemma parse_string_min k v :
  Zod._parse (Zod.ZodString [Zod.min_check 1]) [k] v
  = outcome (first_failure [a_string; not_empty] v) v [k].
Proof.
  destruct v as [| | |n|s| |]; try reflexivity.
  - unfold Zod._parse. simpl. by destruct (isNaN n).
  - unfold Zod._parse, first_failure. simpl.
    destruct s as [|a s]; [reflexivity|].
    assert ((Z.of_nat (String.length (String a s)) <? 1)%Z = false) as ->
      by (apply Z.ltb_ge; simpl; lia).
    by rewrite bool_decide_false.
Qed.

Lemma schema_fits : Forall2 fits DailyLog.sleepLogSchema documented.
Proof.
  repeat constructor; simpl; intros v;
    first [ apply parse_number_range; lia
          | apply parse_number_min
          | apply parse_string_min ].
Qed.

Lemma path_report (c : Constraint) v (p : list string) :
  path (report c v p) = p.
Proof. by destruct c. Qed.
End field_facts.

Section object_facts.
Implicit Types (props : object value) (doc : list (string * list Constraint)).

(** The value the object parser reads for a key. *)
Abbreviation read props k := (default VUndefined (Obj.get k props)).

(** The object parser, metric by metric, in the words of the documented
    constraints. *)
Lemma object_parse_fits shape doc props :
  Forall2 fits shape doc ->
  Zod.object_parse shape (VObject props) =
    (match Zod.mergeObjectSync false []
             (map (fun kc =>
                     Zod.mkPair kc.1
                       (outcome (first_failure kc.2 (read props kc.1))
                                (read props kc.1) [kc.1]).1
                       (Obj.has kc.1 props)) doc) with
     | None => Zod.INVALID
     | Some (true, finalObject) => Zod.DIRTY finalObject
     | Some (false, finalObject) => Zod.OK finalObject
     end,
     concat (map (fun kc =>
                    (outcome (first_failure kc.2 (read props kc.1))
                             (read props kc.1) [kc.1]).2) doc)).
Proof.
  intros Hfits. unfold Zod.object_parse. rewrite !map_map. simpl.
  assert (map (fun kv =>
                 Zod.mkPair kv.1 (Zod._parse kv.2 [kv.1] (read props kv.1)).1
                            (Obj.has kv.1 props)) shape
          = map (fun kc =>
                   Zod.mkPair kc.1
                     (outcome (first_failure kc.2 (read props kc.1))
                              (read props kc.1) [kc.1]).1
                     (Obj.has kc.1 props)) doc) as ->.
  { induction Hfits as [|[k t] [k' cs] shape doc [Hk Hparse] _ IH]; [done|].
    simpl in *. subst k'. by rewrite Hparse, IH. }
  assert (map (fun kv => (Zod._parse kv.2 [kv.1] (read props kv.1)).2) shape
          = map (fun kc =>
                   (outcome (first_failure kc.2 (read props kc.1))
                            (read props kc.1) [kc.1]).2) doc) as ->.
  { induction Hfits as [|[k t] [k' cs] shape doc [Hk Hparse] _ IH]; [done|].
    simpl in *. subst k'. by rewrite Hparse, IH. }
  reflexivity.
Qed.

(** A merge that ends clean saw only clean pairs. *)
Lemma mergeObjectSync_clean pairs is_dirty o finalObject :
  Zod.mergeObjectSync is_dirty o pairs = Some (false, finalObject) ->
  Forall (fun p => ∃ v, Zod.parsed p = Zod.OK v) pairs.
Proof.
  revert is_dirty o. induction pairs as [|p pairs IH]; intros is_dirty o; simpl.
  - constructor.
  - destruct (Zod.parsed p) as [|v|v] eqn:Hp; [done| |]; intros Hmerge.
    + assert (∀ ps o', Zod.mergeObjectSync true o' ps ≠ Some (false, finalObject))
        as Hdirty.
      { clear. induction ps as [|q ps IH]; intros o'; simpl; [done|].
        destruct (Zod.parsed q); [done|apply IH|apply IH]. }
      by apply Hdirty in Hmerge.
    + constructor; [by eexists|]. by eapply IH.
Qed.

(** When no metric fails a constraint, the merge stores every value
    read, in the order of the schema. *)
Lemma mergeObjectSync_all_ok doc props is_dirty o :
  Forall (fun kc => first_failure kc.2 (read props kc.1) = None) doc ->
  Zod.mergeObjectSync is_dirty o
    (map (fun kc =>
            Zod.mkPair kc.1
              (outcome (first_failure kc.2 (read props kc.1))
                       (read props kc.1) [kc.1]).1
              (Obj.has kc.1 props)) doc)
  = Some (is_dirty,
          foldl (fun o kc =>
                   if negb (bool_decide (kc.1 = "__proto__")) &&
                      (negb (is_undefined (read props kc.1)) || Obj.has kc.1 props)
                   then Obj.set kc.1 (read props kc.1) o else o) o doc).
Proof.
  intros Hall. revert o.
  induction Hall as [|[k cs] doc Hk _ IH]; intros o; simpl; [done|].
  simpl in Hk. rewrite Hk. simpl. apply IH.
Qed.

Lemma issues_all_ok doc props :
  Forall (fun kc => first_failure kc.2 (read props kc.1) = None) doc ->
  concat (map (fun kc =>
                 (outcome (first_failure kc.2 (read props kc.1))
                          (read props kc.1) [kc.1]).2) doc) = [].
Proof.
  induction 1 as [|[k cs] doc Hk _ IH]; simpl; [done|].
  simpl in Hk. by rewrite Hk.
Qed.

(** The error mapping built from the issues: one entry per metric that
    fails, holding the report of its first failing constraint. *)
Lemma fieldErrors_lookup doc props (acc : gmap string string) (f : string) :
  NoDup doc.*1 ->
  foldl (fun acc err =>
           <[default "undefined" (head (path err)) := message err]> acc) acc
        (concat (map (fun kc =>
                        (outcome (first_failure kc.2 (read props kc.1))
                                 (read props kc.1) [kc.1]).2) doc)) !! f
  = match (cs ← Obj.get f doc;
           c ← first_failure cs (read props f);
           Some (message (report c (read props f) [f]))) with
    | Some complaint => Some complaint
    | None => acc !! f
    end.
Proof.
  revert acc. induction doc as [|[k cs] doc IH]; intros acc; simpl; [done|].
  rewrite NoDup_cons. intros [Hnot Hnodup].
  rewrite foldl_app, IH by done.
  destruct (decide (k = f)) as [->|Hne]; simpl.
  - rewrite (get_None_keys f doc Hnot). simpl.
    destruct (first_failure cs (read props f)) as [c|]; simpl; [|done].
    by rewrite path_report, lookup_insert_eq.
  - destruct (Obj.get f doc ≫= _); [done|].
    destruct (first_failure cs (read props k)) as [c|]; simpl; [|done].
    by rewrite path_report, lookup_insert_ne.
Qed.
End object_facts.

Section DailyLog_facts.

Lemma documented_NoDup : NoDup documented.*1.
Proof. compute_done. Qed.

Lemma outcome_ok verdict v v' (p : list string) :
  (outcome verdict v p).1 = Zod.OK v' -> verdict = None.
Proof. by destruct verdict as [[]|]. Qed.

(** The error mapping of an input, whatever it is: for each name, the
    complaint about the metric of that name. *)
Lemma fieldErrors_complaints (m : DailyLog.HealthMetricsInput) (f : string) :
  DailyLog.fieldErrors
    (Zod.object_parse DailyLog.sleepLogSchema (VObject (DailyLog.literal m))).2
    !! f = first_complaint m f.
Proof.
  pose proof (object_parse_fits DailyLog.sleepLogSchema documented
                (DailyLog.literal m) schema_fits) as Hfits.
  rewrite Hfits. cbn [snd]. unfold DailyLog.fieldErrors.
  rewrite fieldErrors_lookup by apply documented_NoDup.
  unfold first_complaint, field. rewrite lookup_empty.
  by destruct (Obj.get f documented ≫= _).
Qed.

(** An input with an offending metric: [parse] throws the issues. *)
Lemma parse_rejects {S} (m : DailyLog.HealthMetricsInput) (name : string) (s : S) :
  offending m name ->
  ∃ issues,
    Zod.parse DailyLog.sleepLogSchema (VObject (DailyLog.literal m)) s
      = (Throw (ZodError issues), s)
    ∧ issues
      = (Zod.object_parse DailyLog.sleepLogSchema (VObject (DailyLog.literal m))).2.
Proof.
  intros [complaint Hcomplaint].
  pose proof (fieldErrors_complaints m name) as Hlookup.
  rewrite Hcomplaint in Hlookup.
  unfold Zod.parse, Zod.safeParse, mbind, M_bind.
  pose proof (object_parse_fits DailyLog.sleepLogSchema documented
                (DailyLog.literal m) schema_fits) as Hfits.
  rewrite Hfits in Hlookup |- *. clear Hfits. cbn [snd] in Hlookup |- *.
  match goal with
  | |- context [concat ?l] => remember (concat l) as issues eqn:Hconcat
  end.
  match goal with
  | |- context [Zod.mergeObjectSync ?d ?o ?l] =>
      remember (Zod.mergeObjectSync d o l) as merged eqn:Hmerge
  end.
  assert (issues ≠ []) as Hissues.
  { intros ->. unfold DailyLog.fieldErrors in Hlookup. cbn [foldl] in Hlookup.
    rewrite lookup_empty in Hlookup. discriminate Hlookup. }
  exists issues. split; [|reflexivity].
  destruct merged as [[[|] finalObject]|].
  - destruct issues; [by destruct Hissues|reflexivity].
  - exfalso. apply Hissues. symmetry in Hmerge.
    apply mergeObjectSync_clean in Hmerge.
    rewrite Forall_map in Hmerge.
    rewrite Hconcat. apply issues_all_ok.
    eapply Forall_impl; [exact Hmerge|].
    intros kc [v Hv]. cbn [Zod.parsed] in Hv. by apply outcome_ok in Hv.
  - destruct issues; [by destruct Hissues|reflexivity].
Qed.
End DailyLog_facts.

(** C5. When at least one metric of the coerced input is missing or out
    of range, [handleSubmit] ends with an error mapping that is not
    empty and holds, under the name of each offending metric and under
    no other key, the message of that metric's first failing constraint;
    nothing leaves the page: the trace of outside calls is unchanged, so
    [apiClient.post] was not called. *)
Theorem invalid_input_is_rejected_locally `{Runtime}
    (backend : Request -> FetchOutcome value)
    (st : DailyLog.State) (w : World) (name : string) :
  offending (DailyLog.coerce (DailyLog.formData st)) name ->
  ∃ st',
    DailyLog.handleSubmit backend (st, w) = (Normal tt, (st', w))
    ∧ DailyLog.errors st' ≠ ∅
    ∧ (∀ f, DailyLog.errors st' !! f
            = first_complaint (DailyLog.coerce (DailyLog.formData st)) f)
    ∧ DailyLog.formData st' = DailyLog.formData st
    ∧ DailyLog.toasts st' = DailyLog.toasts st
    ∧ DailyLog.isLoading st' = false.
Proof.
  intros Hoffending.
  destruct (parse_rejects (DailyLog.coerce (DailyLog.formData st)) name
              (DailyLog.mkState (DailyLog.formData st) true ∅ (DailyLog.toasts st), w)
              Hoffending) as (issues & Hparse & Hissues).
  pose proof (fieldErrors_complaints (DailyLog.coerce (DailyLog.formData st)))
    as Hlookup.
  rewrite <- Hissues in Hlookup. clear Hissues.
  exists (DailyLog.mkState (DailyLog.formData st) false
            (DailyLog.fieldErrors issues) (DailyLog.toasts st)).
  split.
  { unfold DailyLog.handleSubmit, finally, try_catch, page, outside,
      DailyLog.setIsLoading, DailyLog.setErrors, modify, gets.
    unfold mbind at 1 2 3 4, M_bind at 1 2 3 4.
    cbn -[Zod.parse DailyLog.literal DailyLog.coerce DailyLog.fieldErrors
          DailyLog.sleepLogSchema].
    unfold mbind at 1, M_bind at 1.
    cbn -[Zod.parse DailyLog.literal DailyLog.coerce DailyLog.fieldErrors
          DailyLog.sleepLogSchema].
    rewrite Hparse. reflexivity. }
  cbn [DailyLog.errors DailyLog.formData DailyLog.toasts DailyLog.isLoading].
  split; [|split; [exact Hlookup|split; [reflexivity|split; reflexivity]]].
  destruct Hoffending as [complaint Hcomplaint].
  intros Hempty. specialize (Hlookup name).
  rewrite Hempty, Hcomplaint in Hlookup.
  rewrite lookup_empty in Hlookup. discriminate Hlookup.
Qed.

Lemma invalid_input_is_rejected_locally_witness :
  ∃ st',
    DailyLog.handleSubmit (H := Example.browser)
      (Example.answers (Success (Parsed VNull)))
      (DailyLog.mkState
         (DailyLog.mkMetrics "" "Male" "25" [of_Z 5] "8000" "Normal" "120/80"
                             "72" "30")
         false ∅ [], Example.signed_in)
      = (Normal tt, (st', Example.signed_in))
    ∧ DailyLog.errors st' !! "age" = Some "Expected number, received nan"
    ∧ DailyLog.errors st' !! "sleep_duration"
      = Some "Number must be less than or equal to 24"
    ∧ DailyLog.errors st' !! "gender" = None.
Proof.
  destruct (@invalid_input_is_rejected_locally Example.browser
              (Example.answers (Success (Parsed VNull)))
              (DailyLog.mkState
                 (DailyLog.mkMetrics "" "Male" "25" [of_Z 5] "8000" "Normal"
                                     "120/80" "72" "30")
                 false ∅ [])
              Example.signed_in "age")
    as (st' & Hrun & _ & Hlookup & _).
  - eexists. vm_compute. reflexivity.
  - exists st'. split; [exact Hrun|].
    rewrite !Hlookup. vm_compute. repeat split.
Defined.

Section valid_input_facts.

Lemma in_range_ok lo hi n :
  in_range lo hi n ->
  first_failure [a_number; at_least lo; at_most hi] (VNumber n) = None.
Proof.
  destruct n as [|negative|q]; simpl; try done.
  intros [Hlo Hhi]. unfold first_failure. simpl.
  apply Qle_bool_iff in Hlo, Hhi. by rewrite Hlo, Hhi.
Qed.

Lemma not_below_ok lo n :
  not_below lo n -> first_failure [a_number; at_least lo] (VNumber n) = None.
Proof.
  destruct n as [|negative|q]; simpl; try done.
  - by intros ->.
  - intros Hlo. unfold first_failure. simpl.
    apply Qle_bool_iff in Hlo. by rewrite Hlo.
Qed.

Lemma not_empty_ok (s : string) :
  s ≠ "" -> first_failure [a_string; not_empty] (VString s) = None.
Proof.
  intros Hs. unfold first_failure. simpl. by rewrite bool_decide_false.
Qed.

(** Within the documented ranges, no metric fails a constraint. *)
Lemma within_ranges_no_failure (m : DailyLog.HealthMetricsInput) :
  within_documented_ranges m ->
  Forall (fun kc => first_failure kc.2 (field m kc.1) = None) documented.
Proof.
  intros (Hage & Hsleep & (n & Hstress & Hn) & Hsteps & Hheart & Hactivity
          & Hgender & Hbmi & Hpressure).
  destruct m as [age gender sleep stress steps bmi pressure heart activity].
  simpl in *. subst stress.
  repeat apply Forall_cons_2; [..|apply Forall_nil_2]; cbn [fst snd].
  - exact (in_range_ok 1 120 age Hage).
  - exact (not_empty_ok gender Hgender).
  - exact (in_range_ok 0 24 sleep Hsleep).
  - exact (in_range_ok 1 10 n Hn).
  - exact (not_below_ok 0 steps Hsteps).
  - exact (not_empty_ok bmi Hbmi).
  - exact (not_empty_ok pressure Hpressure).
  - exact (in_range_ok 30 220 heart Hheart).
  - exact (not_below_ok 0 activity Hactivity).
Qed.
End valid_input_facts.

(** C6. On an input whose metrics are all present and within the
    documented ranges, validation succeeds and returns a record with the
    very values of the coerced input. *)
Theorem valid_input_is_returned_unchanged {S}
    (m : DailyLog.HealthMetricsInput) (s : S) :
  within_documented_ranges m ->
  Zod.parse DailyLog.sleepLogSchema (VObject (DailyLog.literal m)) s
    = (Normal (DailyLog.literal m), s).
Proof.
  intros Hwithin.
  pose proof (within_ranges_no_failure m Hwithin) as Hall.
  unfold Zod.parse, Zod.safeParse, mbind, M_bind.
  pose proof (object_parse_fits DailyLog.sleepLogSchema documented
                (DailyLog.literal m) schema_fits) as Hfits.
  rewrite Hfits. clear Hfits.
  rewrite (mergeObjectSync_all_ok documented (DailyLog.literal m) false [] Hall).
  destruct Hwithin as (_ & _ & (n & Hstress & _) & _).
  destruct m as [age gender sleep stress steps bmi pressure heart activity].
  simpl in Hstress. subst stress.
  reflexivity.
Qed.

Lemma valid_input_is_returned_unchanged_witness :
  Zod.parse DailyLog.sleepLogSchema
    (VObject (DailyLog.literal
       (DailyLog.mkMetrics (of_Z 30) "Male" (Finite (15 # 2)) (Some (of_Z 5))
          (of_Z 8000) "Normal" "120/80" (of_Z 72) (of_Z 30)))) tt
  = (Normal [("age", VNumber (of_Z 30)); ("gender", VString "Male");
             ("sleep_duration", VNumber (Finite (15 # 2)));
             ("stress_level", VNumber (of_Z 5));
             ("daily_steps", VNumber (of_Z 8000));
             ("bmi_category", VString "Normal");
             ("blood_pressure", VString "120/80");
             ("heart_rate", VNumber (of_Z 72));
             ("physical_activity", VNumber (of_Z 30))], tt).
Proof.
  apply (valid_input_is_returned_unchanged
           (DailyLog.mkMetrics (of_Z 30) "Male" (Finite (15 # 2)) (Some (of_Z 5))
              (of_Z 8000) "Normal" "120/80" (of_Z 72) (of_Z 30)) tt).
  unfold within_documented_ranges, in_range, not_below, Qle. simpl.
  repeat split; try lia; try discriminate.
  exists (of_Z 5). simpl. repeat split; lia.
Defined.

Section purity_facts.
Context `{Runtime}.

Lemma parse_cases {S} (schema : Zod.ZodObject) (data : value) (s : S) :
  Zod.parse schema data s =
    (match Zod.object_parse schema data with
     | (Zod.OK v, _) => Normal v
     | (_, []) =>
         Throw (JsError PlainError "Validation failed but no issues detected.")
     | (_, issues) => Throw (ZodError issues)
     end, s).
Proof.
  unfold Zod.parse, Zod.safeParse, mbind, M_bind.
  by destruct (Zod.object_parse schema data) as [[| |v] [|issue issues]].
Qed.

(** [post] throws built-in errors only. *)
Lemma post_throws_Error {T} (backend : Request -> FetchOutcome T)
    (endpoint : string) (body : object value) (w : World) (errors : list ZodIssue) :
  (apiClient.post backend endpoint body w).1 ≠ Throw (ZodError errors).
Proof.
  destruct (getAuthToken_run w) as [token Htoken].
  rewrite (post_run backend endpoint body w token) by by rewrite Htoken.
  unfold mbind, M_bind, fetch.
  destruct (backend _) as [why|[[why|data]|[why|errorData]]]; try done.
  destruct errorData as [| | | | | |props]; try done.
  unfold settle, json, get_property, mbind, M_bind, mret, M_ret, String_.
  by destruct (convertible _).
Qed.

(** The error mapping [handleSubmit] leaves behind: that of the issues
    of the form's input, empty when there are none. *)
Lemma handleSubmit_errors (backend : Request -> FetchOutcome value)
    (st : DailyLog.State) (w : World) :
  DailyLog.errors (DailyLog.handleSubmit backend (st, w)).2.1 =
    match Zod.object_parse DailyLog.sleepLogSchema
            (VObject (DailyLog.literal (DailyLog.coerce (DailyLog.formData st))))
    with
    | (Zod.OK _, _) | (_, []) => ∅
    | (_, issues) => DailyLog.fieldErrors issues
    end.
Proof.
  unfold DailyLog.handleSubmit, finally, try_catch, page, outside,
    DailyLog.setIsLoading, DailyLog.setErrors, DailyLog.setFormData,
    DailyLog.toast, modify, gets.
  unfold mbind at 1 2 3 4, M_bind at 1 2 3 4.
  cbn -[Zod.parse Zod.object_parse DailyLog.literal DailyLog.coerce
        DailyLog.fieldErrors DailyLog.sleepLogSchema apiClient.post].
  unfold mbind at 1, M_bind at 1.
  rewrite parse_cases.
  destruct (Zod.object_parse _ _) as [[| |validatedData] [|issue issues]];
    try reflexivity.
  - unfold mbind, M_bind, getUser.
    cbn -[apiClient.post DailyLog.literal DailyLog.coerce].
    cbv beta iota delta [fst snd].
    destruct (user w); [|reflexivity].
    pose proof (post_throws_Error backend "/log" validatedData
                  (emit AuthGetUser w)) as Hpost.
    destruct (apiClient.post backend "/log" validatedData (emit AuthGetUser w))
      as [[r|[errors|class msg]] w'];
      [reflexivity|by destruct (Hpost errors)|reflexivity].
  - unfold mbind, M_bind, getUser.
    cbn -[apiClient.post DailyLog.literal DailyLog.coerce].
    cbv beta iota delta [fst snd].
    destruct (user w); [|reflexivity].
    pose proof (post_throws_Error backend "/log" validatedData
                  (emit AuthGetUser w)) as Hpost.
    destruct (apiClient.post backend "/log" validatedData (emit AuthGetUser w))
      as [[r|[errors|class msg]] w'];
      [reflexivity|by destruct (Hpost errors)|reflexivity].
Qed.
End purity_facts.

(** C9. Validation is a function of its input alone: for every input
    there is one outcome, which every run yields without touching any
    state; and two submissions of the same form data leave the same
    error mapping, whatever the page showed before, whoever is signed
    in and whatever the backend answers. *)
Theorem validation_is_deterministic `{Runtime} :
  (∀ data : value,
      ∃ result : Completion Zod.SafeParseReturn,
        ∀ (S : Type) (s : S),
          Zod.safeParse DailyLog.sleepLogSchema data s = (result, s))
  ∧ (∀ (backend1 backend2 : Request -> FetchOutcome value)
       (st1 st2 : DailyLog.State) (w1 w2 : World),
        DailyLog.formData st1 = DailyLog.formData st2 ->
        DailyLog.errors (DailyLog.handleSubmit backend1 (st1, w1)).2.1
        = DailyLog.errors (DailyLog.handleSubmit backend2 (st2, w2)).2.1).
Proof.
  split.
  - intros data. unfold Zod.safeParse.
    destruct (Zod.object_parse DailyLog.sleepLogSchema data)
      as [[| |v] [|issue issues]]; eexists; intros S s; reflexivity.
  - intros backend1 backend2 st1 st2 w1 w2 Hsame.
    by rewrite !handleSubmit_errors, Hsame.
Qed.

Lemma validation_is_deterministic_witness :
  DailyLog.errors
    (DailyLog.handleSubmit (H := Example.browser)
       (Example.answers (Success (Parsed VNull)))
       (DailyLog.mkState
          (DailyLog.mkMetrics "30" "" "7" [of_Z 5] "8000" "Normal" "120/80"
                              "72" "30")
          false ∅ [], Example.signed_in)).2.1
  = DailyLog.errors
      (DailyLog.handleSubmit (H := Example.browser)
         (Example.answers (Failure (Unparseable "offline")))
         (DailyLog.mkState
            (DailyLog.mkMetrics "30" "" "7" [of_Z 5] "8000" "Normal" "120/80"
                                "72" "30")
            true {["age" := "stale"]} [], Example.signed_out)).2.1.
Proof.
  destruct (@validation_is_deterministic Example.browser) as [_ Hsame].
  apply Hsame. reflexivity.
Defined.

(** * Further properties of the sources *)

(** ** The API client: failures, success, and what leaves the page *)

Section apiClient_more.
Context `{Runtime}.

Lemma fetch_settle_unreachable {T} (backend : Request -> FetchOutcome T) req why w :
  backend req = Unreachable why ->
  (fetch backend req ≫= settle) w
    = (Throw (JsError TypeError why), emit (Fetch req) w).
Proof. intros Hr. unfold mbind, M_bind, fetch. by rewrite Hr. Qed.

Lemma get_invalid_url_run {T} (backend : Request -> FetchOutcome T)
    endpoint params w token :
  (apiClient.getAuthToken w).1 = Normal (Some token) ->
  new_URL (API_URL ++ endpoint) = None ->
  apiClient.get backend endpoint params w
    = (Throw (JsError TypeError "Invalid URL"), emit AuthGetSession w).
Proof.
  intros Htoken Hurl. destruct (getAuthToken_run w) as [token' Hrun].
  rewrite Hrun in Htoken. simpl in Htoken. injection Htoken as ->.
  unfold apiClient.get, mbind, M_bind at 1. by rewrite Hrun, Hurl.
Qed.

Lemma trace_emit (e : Event) (w : World) :
  trace (emit e w) = (trace w ++ [e])%list.
Proof. reflexivity. Qed.

(** The token [getAuthToken] finds, read off the session. *)
Lemma getAuthToken_value (w : World) :
  (apiClient.getAuthToken w).1 =
    Normal (match session w with
            | Some s => if bool_decide (access_token s = "") then None
                        else Some (access_token s)
            | None => None
            end).
Proof.
  unfold apiClient.getAuthToken, getSession, mbind, M_bind, mret, M_ret.
  simpl. destruct (session w) as [s|]; [|done]. simpl.
  by destruct (bool_decide (access_token s = "")).
Qed.
End apiClient_more.

(** X1. A network failure is passed on as it is: when [fetch] rejects,
    [post] and [get] reject with the very reason of [fetch], after one
    attempted request and without any retry.  (A [get] whose parameters
    [String] cannot convert does not reach [fetch].) *)
Theorem network_failure_is_passed_on `{Runtime} {T}
    (backend : Request -> FetchOutcome T) (why : string)
    (endpoint : string) (w : World) :
  (∀ req, backend req = Unreachable why) ->
  (∀ body,
      (apiClient.post backend endpoint body w).1 = Throw (JsError TypeError why)
      ∧ length (requests (apiClient.post backend endpoint body w).2)
        = S (length (requests w)))
  ∧ (∀ params token url,
        (apiClient.getAuthToken w).1 = Normal (Some token) ->
        new_URL (API_URL ++ endpoint) = Some url ->
        if serialisable params then
          (apiClient.get backend endpoint params w).1
            = Throw (JsError TypeError why)
          ∧ length (requests (apiClient.get backend endpoint params w).2)
            = S (length (requests w))
        else
          requests (apiClient.get backend endpoint params w).2 = requests w).
Proof.
  intros Hdown. split.
  - intros body. destruct (getAuthToken_run w) as [token Htoken].
    rewrite (post_run backend endpoint body w token) by by rewrite Htoken.
    rewrite (fetch_settle_unreachable _ _ _ _ (Hdown _)).
    split; [reflexivity|]. cbn [snd].
    rewrite requests_emit_fetch, requests_emit_session, length_app. simpl. lia.
  - intros params token url Htoken Hurl.
    destruct (serialisable params) eqn:Hparams;
      [|by apply (get_unserialisable_sends_nothing _ _ _ _ token url)].
    rewrite (get_run backend endpoint params w token url Htoken Hurl Hparams).
    rewrite (fetch_settle_unreachable _ _ _ _ (Hdown _)).
    split; [reflexivity|]. cbn [snd].
    rewrite requests_emit_fetch, requests_emit_session, length_app. simpl. lia.
Qed.

Lemma network_failure_is_passed_on_witness :
  (@apiClient.post Example.browser value (fun _ => Unreachable "Failed to fetch")
     "/log" [] Example.signed_in).1
    = Throw (JsError TypeError "Failed to fetch")
  ∧ (@apiClient.get Example.browser value (fun _ => Unreachable "Failed to fetch")
       "/dashboard/series" None Example.signed_in).1
    = Throw (JsError TypeError "Failed to fetch").
Proof.
  destruct (@network_failure_is_passed_on Example.browser value
              (fun _ => Unreachable "Failed to fetch") "Failed to fetch"
              "/log" Example.signed_in) as [Hpost _]; [reflexivity|].
  destruct (@network_failure_is_passed_on Example.browser value
              (fun _ => Unreachable "Failed to fetch") "Failed to fetch"
              "/dashboard/series" Example.signed_in) as [_ Hget]; [reflexivity|].
  split.
  - apply Hpost.
  - apply (Hget None "jwt" (mkURL "https://api.sleepwise.test/dashboard/series" []));
      reflexivity.
Defined.

(** X2. The body of a success response is returned as parsed, nothing
    checked and nothing changed; and a success response whose body is
    not JSON (an empty 204, say) makes the call reject with the parse
    failure although the backend accepted the request.  (A [get] whose
    parameters [String] cannot convert makes no request.) *)
Theorem success_body_is_returned_as_parsed `{Runtime} {T}
    (backend : Request -> FetchOutcome T) (b : Body T)
    (endpoint : string) (w : World) :
  (∀ req, backend req = Responded (Success b)) ->
  let outcome :=
    match b with
    | Parsed data => Normal data
    | Unparseable why => Throw (JsError SyntaxError why)
    end in
  (∀ body, (apiClient.post backend endpoint body w).1 = outcome)
  ∧ (∀ params token url,
        (apiClient.getAuthToken w).1 = Normal (Some token) ->
        new_URL (API_URL ++ endpoint) = Some url ->
        if serialisable params then
          (apiClient.get backend endpoint params w).1 = outcome
        else
          requests (apiClient.get backend endpoint params w).2 = requests w).
Proof.
  intros Hok outcome. subst outcome. split.
  - intros body. destruct (getAuthToken_run w) as [token Htoken].
    rewrite (post_run backend endpoint body w token) by by rewrite Htoken.
    rewrite (fetch_settle_responded _ _ _ _ (Hok _)). by destruct b.
  - intros params token url Htoken Hurl.
    destruct (serialisable params) eqn:Hparams;
      [|by apply (get_unserialisable_sends_nothing _ _ _ _ token url)].
    rewrite (get_run backend endpoint params w token url Htoken Hurl Hparams).
    rewrite (fetch_settle_responded _ _ _ _ (Hok _)). by destruct b.
Qed.

Lemma success_body_is_returned_as_parsed_witness :
  (@apiClient.post Example.browser value
     (Example.answers (Success (Parsed (VString "stored")))) "/log" []
     Example.signed_in).1 = Normal (VString "stored")
  ∧ (@apiClient.post Example.browser value
       (Example.answers (Success (Unparseable "Unexpected end of JSON input")))
       "/log" [] Example.signed_in).1
    = Throw (JsError SyntaxError "Unexpected end of JSON input").
Proof.
  split.
  - destruct (@success_body_is_returned_as_parsed Example.browser value
                (Example.answers (Success (Parsed (VString "stored"))))
                (Parsed (VString "stored")) "/log" Example.signed_in)
      as [Hpost _]; [reflexivity|]. apply Hpost.
  - destruct (@success_body_is_returned_as_parsed Example.browser value
                (Example.answers (Success (Unparseable "Unexpected end of JSON input")))
                (Unparseable "Unexpected end of JSON input") "/log"
                Example.signed_in)
      as [Hpost _]; [reflexivity|]. apply Hpost.
Defined.

(** X3. Every call reads the session exactly once, before anything
    else, and sends at most one request after it: [post] always exactly
    one, [get] one or none. *)
Theorem one_session_read_per_call `{Runtime} {T}
    (backend : Request -> FetchOutcome T) (endpoint : string) (w : World) :
  (∀ body,
      let w' := (apiClient.post backend endpoint body w).2 in
      ∃ sent, trace w' = (trace w ++ [AuthGetSession; Fetch sent])%list)
  ∧ (∀ params,
        let w' := (apiClient.get backend endpoint params w).2 in
        trace w' = (trace w ++ [AuthGetSession])%list
        ∨ ∃ sent, trace w' = (trace w ++ [AuthGetSession; Fetch sent])%list).
Proof.
  split.
  - intros body w'. subst w'. destruct (getAuthToken_run w) as [token Htoken].
    rewrite (post_run backend endpoint body w token) by by rewrite Htoken.
    rewrite fetch_settle_world, !trace_emit, <- app_assoc.
    by eexists.
  - intros params w'. subst w'.
    destruct (getAuthToken_run w) as [[token|] Htoken].
    + destruct (new_URL (API_URL ++ endpoint)) as [url|] eqn:Hurl.
      * destruct (serialisable params) eqn:Hparams.
        -- rewrite (get_run backend endpoint params w token url)
             by (by rewrite ?Htoken).
           rewrite fetch_settle_world, !trace_emit, <- app_assoc.
           right. by eexists.
        -- rewrite (get_unserialisable_run backend endpoint params w token url)
             by (by rewrite ?Htoken).
           by left.
      * rewrite (get_invalid_url_run backend endpoint params w token)
          by (by rewrite ?Htoken).
        by left.
    + rewrite (get_no_token_run backend endpoint params w) by by rewrite Htoken.
      by left.
Qed.

(** X4. With a credential but an address the URL constructor refuses,
    [get] throws a TypeError before anything is sent. *)
Theorem get_invalid_url_sends_nothing `{Runtime} {T}
    (backend : Request -> FetchOutcome T) (endpoint : string)
    (params : option (object value)) (w : World) (token : string) :
  (apiClient.getAuthToken w).1 = Normal (Some token) ->
  new_URL (API_URL ++ endpoint) = None ->
  (∃ msg, (apiClient.get backend endpoint params w).1
          = Throw (JsError TypeError msg))
  ∧ requests (apiClient.get backend endpoint params w).2 = requests w.
Proof.
  intros Htoken Hurl.
  rewrite (get_invalid_url_run backend endpoint params w token Htoken Hurl).
  split; [by eexists|]. apply requests_emit_session.
Qed.

Lemma get_invalid_url_sends_nothing_witness :
  requests (@apiClient.get (StrictExample.browser "undefined") value
              (Example.answers (Success (Parsed VNull))) "/dashboard/series"
              (Some [("days", VNumber (of_Z 7))]) Example.signed_in).2 = [].
Proof.
  apply (@get_invalid_url_sends_nothing (StrictExample.browser "undefined") value
           (Example.answers (Success (Parsed VNull))) "/dashboard/series"
           (Some [("days", VNumber (of_Z 7))]) Example.signed_in "jwt");
    reflexivity.
Defined.

(** X5. A non-success response whose body is the JSON value null makes
    [post] and [get] throw a TypeError, the read of [detail] failing on
    null; the generic message is not used.  (A [get] whose parameters
    [String] cannot convert makes no request.) *)
Theorem null_error_body_is_a_TypeError `{Runtime} {T}
    (backend : Request -> FetchOutcome T) (endpoint : string) (w : World) :
  (∀ req, backend req = Responded (Failure (Parsed VNull))) ->
  (∀ body,
      (apiClient.post backend endpoint body w).1
        = Throw (JsError TypeError
                   "Cannot read properties of null (reading 'detail')"))
  ∧ (∀ params token url,
        (apiClient.getAuthToken w).1 = Normal (Some token) ->
        new_URL (API_URL ++ endpoint) = Some url ->
        if serialisable params then
          (apiClient.get backend endpoint params w).1
            = Throw (JsError TypeError
                       "Cannot read properties of null (reading 'detail')")
        else
          requests (apiClient.get backend endpoint params w).2 = requests w).
Proof.
  intros Hnull. split.
  - intros body. destruct (getAuthToken_run w) as [token Htoken].
    rewrite (post_run backend endpoint body w token) by by rewrite Htoken.
    by rewrite (fetch_settle_responded _ _ _ _ (Hnull _)).
  - intros params token url Htoken Hurl.
    destruct (serialisable params) eqn:Hparams;
      [|by apply (get_unserialisable_sends_nothing _ _ _ _ token url)].
    rewrite (get_run backend endpoint params w token url Htoken Hurl Hparams).
    by rewrite (fetch_settle_responded _ _ _ _ (Hnull _)).
Qed.

Lemma null_error_body_is_a_TypeError_witness :
  (@apiClient.post Example.browser value
     (Example.answers (Failure (Parsed VNull))) "/log" [] Example.signed_in).1
    = Throw (JsError TypeError "Cannot read properties of null (reading 'detail')").
Proof.
  destruct (@null_error_body_is_a_TypeError Example.browser value
              (Example.answers (Failure (Parsed VNull))) "/log" Example.signed_in)
    as [Hpost _]; [reflexivity|].
  apply Hpost.
Defined.

Lemma ToString_objects `{Runtime} (items : list value) :
  Forall (fun item => ∃ props, item = VObject props) items ->
  ToString (VArray items)
    = join "," (replicate (length items) "[object Object]").
Proof.
  intros Hitems. simpl. f_equal.
  induction Hitems as [|item items [props ->] _ IH]; [done|].
  simpl. by f_equal.
Qed.

Lemma convertible_objects (items : list value) :
  Forall (fun item => ∃ props,
            item = VObject props ∧ Obj.has "toString" props = false) items ->
  convertible (VArray items) = true.
Proof.
  intros Hitems. simpl.
  induction Hitems as [|item items (props & -> & Hown) _ IH]; [done|].
  cbn [convertible]. by rewrite Hown.
Qed.

(** X6. A detail that is not a string is shown through its string
    conversion.  An object with no property of its own named [toString]
    (one entry of a validation report, say) gives the message
    "[object Object]"; a list of [n] such objects gives that text [n]
    times separated by commas, and an empty list the empty message.  A
    detail the conversion fails on, such as an object with a [toString]
    property of its own, makes [post] throw the TypeError of the
    conversion and no [Error] with a message. *)
Theorem structured_detail_is_stringified `{Runtime} {T}
    (backend : Request -> FetchOutcome T) (errorData : value)
    (endpoint : string) (body : object value) (w : World) :
  (∀ req, backend req = Responded (Failure (Parsed errorData))) ->
  (∀ props,
      backend_detail errorData = Some (VObject props) ->
      Obj.has "toString" props = false ->
      (apiClient.post backend endpoint body w).1
        = Throw (JsError PlainError "[object Object]"))
  ∧ (∀ items,
        backend_detail errorData = Some (VArray items) ->
        Forall (fun item => ∃ props,
                  item = VObject props ∧ Obj.has "toString" props = false) items ->
        (apiClient.post backend endpoint body w).1
          = Throw (JsError PlainError
                     (join "," (replicate (length items) "[object Object]"))))
  ∧ (∀ detail,
        backend_detail errorData = Some detail ->
        convertible detail = false ->
        ∃ message,
          (apiClient.post backend endpoint body w).1
            = Throw (JsError TypeError message)).
Proof.
  intros Hbackend.
  assert (∀ detail,
             backend_detail errorData = Some detail -> truthy detail = true ->
             convertible detail = true ->
             (apiClient.post backend endpoint body w).1
               = Throw (JsError PlainError (ToString detail))) as Hmessage.
  { intros detail Hdetail Htruthy Hconvertible.
    destruct (getAuthToken_run w) as [token Htoken].
    rewrite (post_run backend endpoint body w token) by by rewrite Htoken.
    rewrite (fetch_settle_responded _ _ _ _ (Hbackend _)).
    assert (apiClient.or_else (default VUndefined (backend_detail errorData))
                              (VString "API request failed") = detail) as Hshown.
    { rewrite Hdetail. unfold apiClient.or_else. simpl.
      by rewrite Htruthy. }
    rewrite settle_failure_parsed.
    - by rewrite Hshown.
    - intros ->. discriminate Hdetail.
    - intros ->. discriminate Hdetail.
    - by rewrite Hshown. }
  split; [|split].
  - intros props Hdetail Hown. rewrite (Hmessage _ Hdetail); [done..|].
    cbn [convertible]. by rewrite Hown.
  - intros items Hdetail Hitems.
    rewrite (Hmessage _ Hdetail); [|done|by apply convertible_objects].
    rewrite ToString_objects; [done|].
    eapply Forall_impl; [exact Hitems|]. intros item (props & -> & _).
    by eexists.
  - intros detail Hdetail Hconvertible. eexists.
    destruct (getAuthToken_run w) as [token Htoken].
    rewrite (post_run backend endpoint body w token) by by rewrite Htoken.
    rewrite (fetch_settle_responded _ _ _ _ (Hbackend _)).
    rewrite settle_failure_unconvertible; [reflexivity|].
    rewrite Hdetail. unfold apiClient.or_else. simpl default.
    destruct detail; try discriminate Hconvertible; exact Hconvertible.
Qed.

Lemma structured_detail_is_stringified_witness :
  (@apiClient.post Example.browser value
     (Example.answers
        (Failure (Parsed (VObject
           [("detail", VArray [VObject [("msg", VString "field required")];
                               VObject [("msg", VString "value is not a number")]])]))))
     "/predict" [] Example.signed_in).1
    = Throw (JsError PlainError "[object Object],[object Object]")
  ∧ ∃ message,
      (@apiClient.post Example.browser value
         (Example.answers
            (Failure (Parsed (VObject
               [("detail", VObject [("toString", VString "quota exceeded")])]))))
         "/predict" [] Example.signed_in).1
        = Throw (JsError TypeError message).
Proof.
  split.
  - destruct (@structured_detail_is_stringified Example.browser value
                (Example.answers
                   (Failure (Parsed (VObject
                      [("detail", VArray [VObject [("msg", VString "field required")];
                                          VObject [("msg", VString "value is not a number")]])]))))
                (VObject
                   [("detail", VArray [VObject [("msg", VString "field required")];
                                       VObject [("msg", VString "value is not a number")]])])
                "/predict" [] Example.signed_in) as (_ & Hlist & _); [reflexivity|].
    apply (Hlist [VObject [("msg", VString "field required")];
                  VObject [("msg", VString "value is not a number")]]);
      [reflexivity|].
    repeat constructor; by eexists.
  - destruct (@structured_detail_is_stringified Example.browser value
                (Example.answers
                   (Failure (Parsed (VObject
                      [("detail", VObject [("toString", VString "quota exceeded")])]))))
                (VObject
                   [("detail", VObject [("toString", VString "quota exceeded")])])
                "/predict" [] Example.signed_in) as (_ & _ & Hfails); [reflexivity|].
    apply (Hfails (VObject [("toString", VString "quota exceeded")]));
      reflexivity.
Defined.

(** X7. A session whose access token is the empty string counts as no
    credential: [get] throws the missing-credential error and sends
    nothing, and [post] sends null, not the empty string, as [token]. *)
Theorem empty_token_is_no_credential `{Runtime} {T}
    (backend : Request -> FetchOutcome T) (endpoint : string) (w : World) :
  session w = Some (mkSession "") ->
  (∀ params,
      apiClient.get backend endpoint params w
        = (Throw (JsError PlainError "Authentication token not found."),
           emit AuthGetSession w))
  ∧ (∀ body, ∃ sent payload,
        requests (apiClient.post backend endpoint body w).2
          = (requests w ++ [sent])%list
        ∧ json_body sent = Some payload
        ∧ Obj.get "token" payload = Some VNull).
Proof.
  intros Hsession.
  assert ((apiClient.getAuthToken w).1 = Normal None) as Hnone.
  { by rewrite getAuthToken_value, Hsession. }
  split.
  - intros params. by apply get_no_token_run.
  - intros body. exists (post_request None endpoint body). eexists.
    rewrite (post_run backend endpoint body w None Hnone).
    rewrite fetch_settle_world, requests_emit_fetch, requests_emit_session.
    split; [reflexivity|]. split; [reflexivity|]. apply get_set_eq.
Qed.

Lemma empty_token_is_no_credential_witness :
  requests (@apiClient.get Example.browser value
              (Example.answers (Success (Parsed VNull))) "/dashboard/series" None
              (mkWorld (Some (mkSession "")) (Some (mkUser "u1")) [])).2 = [].
Proof.
  destruct (@empty_token_is_no_credential Example.browser value
              (Example.answers (Success (Parsed VNull))) "/dashboard/series"
              (mkWorld (Some (mkSession "")) (Some (mkUser "u1")) []) eq_refl)
    as [Hget _].
  by rewrite Hget.
Defined.

(** ** The daily log form, past validation *)

Section DailyLog_more.
Context `{Runtime}.

(** Within the documented ranges [parse] returns its input. *)
Lemma parse_accepts {S} (schema : Zod.ZodObject)
    (m : DailyLog.HealthMetricsInput) (s : S) :
  Forall2 fits schema documented ->
  within_documented_ranges m ->
  Zod.parse schema (VObject (DailyLog.literal m)) s
    = (Normal (DailyLog.literal m), s).
Proof.
  intros Hschema Hwithin.
  pose proof (within_ranges_no_failure m Hwithin) as Hall.
  unfold Zod.parse, Zod.safeParse, mbind, M_bind.
  pose proof (object_parse_fits schema documented (DailyLog.literal m) Hschema)
    as Hfits.
  rewrite Hfits. clear Hfits.
  rewrite (mergeObjectSync_all_ok documented (DailyLog.literal m) false [] Hall).
  destruct Hwithin as (_ & _ & (n & Hstress & _) & _).
  destruct m as [age gender sleep stress steps bmi pressure heart activity].
  simpl in Hstress. subst stress.
  reflexivity.
Qed.

(** One submission of the daily log, case by case. *)
Lemma handleSubmit_cases (backend : Request -> FetchOutcome value)
    (st : DailyLog.State) (w : World) :
  DailyLog.handleSubmit backend (st, w) =
    let fd := DailyLog.formData st in
    let shown := DailyLog.toasts st in
    match (Zod.parse DailyLog.sleepLogSchema (VObject (submitted fd))
             (DailyLog.mkState fd true ∅ shown, w)).1 with
    | Throw (ZodError errors) =>
        (Normal tt,
         (DailyLog.mkState fd false (DailyLog.fieldErrors errors) shown, w))
    | Throw reason =>
        (Normal tt,
         (DailyLog.mkState fd false ∅ (shown ++ [log_failed reason])%list, w))
    | Normal validatedData =>
        match user w with
        | None =>
            (Normal tt,
             (DailyLog.mkState fd false ∅ (shown ++ [sign_in_to_log])%list,
              emit AuthGetUser w))
        | Some _ =>
            match apiClient.post backend "/log" validatedData
                    (emit AuthGetUser w) with
            | (Normal _, w') =>
                (Normal tt,
                 (DailyLog.mkState DailyLog.initialFormData false ∅
                    (shown ++ [log_stored])%list, w'))
            | (Throw (ZodError errors), w') =>
                (Normal tt,
                 (DailyLog.mkState fd false (DailyLog.fieldErrors errors) shown, w'))
            | (Throw reason, w') =>
                (Normal tt,
                 (DailyLog.mkState fd false ∅ (shown ++ [log_failed reason])%list,
                  w'))
            end
        end
    end.
Proof.
  unfold DailyLog.handleSubmit, finally, try_catch, page, outside,
    DailyLog.setIsLoading, DailyLog.setErrors, DailyLog.setFormData,
    DailyLog.toast, modify, gets, submitted.
  unfold mbind at 1 2 3 4, M_bind at 1 2 3 4.
  cbn -[Zod.parse Zod.object_parse DailyLog.literal DailyLog.coerce
        DailyLog.fieldErrors DailyLog.sleepLogSchema apiClient.post].
  unfold mbind at 1, M_bind at 1.
  rewrite parse_cases. cbn [fst].
  destruct (Zod.object_parse _ _) as [[| |validatedData] [|issue issues]];
    try reflexivity.
  all: unfold mbind, M_bind, getUser;
    cbn -[apiClient.post DailyLog.literal DailyLog.coerce];
    cbv beta iota delta [fst snd];
    (destruct (user w); [|reflexivity]);
    by destruct (apiClient.post backend "/log" validatedData (emit AuthGetUser w))
      as [[r|[errors|class msg]] w'].
Qed.
End DailyLog_more.

(** X8. No error escapes [handleSubmit] of the daily log: whatever the
    form holds, whoever is signed in and whatever the backend does, it
    returns normally, and the loading flag is off when it returns. *)
Theorem handleSubmit_never_throws `{Runtime}
    (backend : Request -> FetchOutcome value) (st : DailyLog.State) (w : World) :
  ∃ st' w',
    DailyLog.handleSubmit backend (st, w) = (Normal tt, (st', w'))
    ∧ DailyLog.isLoading st' = false.
Proof.
  rewrite handleSubmit_cases. cbv zeta.
  destruct (Zod.parse _ _ _).1 as [validatedData|[errors|class msg]];
    [|by eexists _, _..].
  destruct (user w); [|by eexists _, _].
  destruct (apiClient.post backend "/log" validatedData (emit AuthGetUser w))
    as [[r|[errors|class msg]] w']; by eexists _, _.
Qed.

(** X9. A valid daily log submitted while nobody is signed in is not
    sent: the only outside call is the read of the user, the page shows
    the sign-in notification and keeps the form as typed. *)
Theorem handleSubmit_signed_out `{Runtime}
    (backend : Request -> FetchOutcome value) (st : DailyLog.State) (w : World) :
  within_documented_ranges (DailyLog.coerce (DailyLog.formData st)) ->
  user w = None ->
  DailyLog.handleSubmit backend (st, w) =
    (Normal tt,
     (DailyLog.mkState (DailyLog.formData st) false ∅
        (DailyLog.toasts st ++ [sign_in_to_log])%list,
      emit AuthGetUser w))
  ∧ requests (DailyLog.handleSubmit backend (st, w)).2.2 = requests w.
Proof.
  intros Hwithin Huser.
  rewrite handleSubmit_cases. cbv zeta. unfold submitted.
  rewrite (parse_accepts _ _ _ schema_fits Hwithin). cbn [fst].
  rewrite Huser. split; [reflexivity|]. apply requests_emit_user.
Qed.

Lemma handleSubmit_signed_out_witness :
  requests
    (DailyLog.handleSubmit (H := Example.browser)
       (Example.answers (Success (Parsed VNull)))
       (DailyLog.mkState
          (DailyLog.mkMetrics "30" "Male" "7" [of_Z 5] "8000" "Normal" "120/80"
                              "72" "30")
          false ∅ [], Example.signed_out)).2.2 = [].
Proof.
  apply (@handleSubmit_signed_out Example.browser
           (Example.answers (Success (Parsed VNull)))
           (DailyLog.mkState
              (DailyLog.mkMetrics "30" "Male" "7" [of_Z 5] "8000" "Normal"
                                  "120/80" "72" "30")
              false ∅ []) Example.signed_out); [|reflexivity].
  unfold within_documented_ranges, in_range, not_below, Qle. simpl.
  repeat split; try lia; try discriminate.
  exists (of_Z 5). simpl. repeat split; lia.
Defined.

(** X10. A valid daily log submitted by a signed-in user whose request
    the backend answers with a success: exactly one request is sent, a
    POST to the log endpoint whose JSON body holds the validated metrics
    and the credential; the form is then cleared, the error mapping is
    empty and the success notification is shown. *)
Theorem handleSubmit_stores_the_log `{Runtime}
    (backend : Request -> FetchOutcome value) (st : DailyLog.State) (w : World)
    (u : User) (token : option string) (answer : value) :
  within_documented_ranges (DailyLog.coerce (DailyLog.formData st)) ->
  user w = Some u ->
  (apiClient.getAuthToken w).1 = Normal token ->
  (∀ req, backend req = Responded (Success (Parsed answer))) ->
  ∃ sent payload w',
    DailyLog.handleSubmit backend (st, w) =
      (Normal tt,
       (DailyLog.mkState DailyLog.initialFormData false ∅
          (DailyLog.toasts st ++ [log_stored])%list, w'))
    ∧ requests w' = (requests w ++ [sent])%list
    ∧ method sent = POST
    ∧ target sent = Href (API_URL ++ "/log")
    ∧ json_body sent = Some payload
    ∧ Obj.get "token" payload = Some (apiClient.token_value token)
    ∧ ∀ k, k ≠ "token" ->
           Obj.get k payload = Obj.get k (submitted (DailyLog.formData st)).
Proof.
  intros Hwithin Huser Htoken Hbackend.
  assert ((apiClient.getAuthToken (emit AuthGetUser w)).1 = Normal token)
    as Htoken'.
  { by rewrite getAuthToken_value in *. }
  exists (post_request token "/log" (submitted (DailyLog.formData st))).
  eexists.
  exists (emit (Fetch (post_request token "/log" (submitted (DailyLog.formData st))))
            (emit AuthGetSession (emit AuthGetUser w))).
  split.
  - rewrite handleSubmit_cases. cbv zeta. unfold submitted.
    rewrite (parse_accepts _ _ _ schema_fits Hwithin). cbn [fst].
    rewrite Huser.
    rewrite (post_run backend "/log" _ _ token Htoken').
    by rewrite (fetch_settle_responded _ _ _ _ (Hbackend _)).
  - rewrite requests_emit_fetch, requests_emit_session, requests_emit_user.
    split; [reflexivity|]. split; [reflexivity|]. split; [reflexivity|].
    split; [reflexivity|]. split; [apply get_set_eq|].
    intros k Hk. rewrite get_set_ne by done. apply get_spread.
    unfold submitted. generalize (DailyLog.coerce (DailyLog.formData st)).
    intros m. destruct m. compute_done.
Qed.

Lemma handleSubmit_stores_the_log_witness :
  ∃ st' w',
    DailyLog.handleSubmit (H := Example.browser)
      (Example.answers (Success (Parsed (VString "stored"))))
      (DailyLog.mkState
         (DailyLog.mkMetrics "30" "Male" "7" [of_Z 5] "8000" "Normal" "120/80"
                             "72" "30")
         false ∅ [], Example.signed_in) = (Normal tt, (st', w'))
    ∧ DailyLog.formData st' = DailyLog.initialFormData
    ∧ length (requests w') = 1%nat.
Proof.
  destruct (@handleSubmit_stores_the_log Example.browser
              (Example.answers (Success (Parsed (VString "stored"))))
              (DailyLog.mkState
                 (DailyLog.mkMetrics "30" "Male" "7" [of_Z 5] "8000" "Normal"
                                     "120/80" "72" "30")
                 false ∅ []) Example.signed_in (mkUser "u1") (Some "jwt")
              (VString "stored"))
    as (sent & payload & w' & Hrun & Hrequests & _).
  - unfold within_documented_ranges, in_range, not_below, Qle. simpl.
    repeat split; try lia; try discriminate.
    exists (of_Z 5). simpl. repeat split; lia.
  - reflexivity.
  - reflexivity.
  - reflexivity.
  - eexists _, w'. split; [exact Hrun|]. split; [reflexivity|].
    by rewrite Hrequests.
Defined.

(** X11. When the request of a valid daily log fails (a network failure,
    a non-success status, a body that does not parse), the form keeps
    what the user typed, the error mapping stays empty, and one
    notification carries the message of the failure. *)
Theorem handleSubmit_failure_keeps_the_form `{Runtime}
    (backend : Request -> FetchOutcome value) (st : DailyLog.State) (w : World)
    (u : User) (reason : exn) :
  within_documented_ranges (DailyLog.coerce (DailyLog.formData st)) ->
  user w = Some u ->
  (apiClient.post backend "/log" (submitted (DailyLog.formData st))
     (emit AuthGetUser w)).1 = Throw reason ->
  ∃ w',
    DailyLog.handleSubmit backend (st, w) =
      (Normal tt,
       (DailyLog.mkState (DailyLog.formData st) false ∅
          (DailyLog.toasts st ++ [log_failed reason])%list, w')).
Proof.
  intros Hwithin Huser Hpost.
  rewrite handleSubmit_cases. cbv zeta. unfold submitted in *.
  rewrite (parse_accepts _ _ _ schema_fits Hwithin). cbn [fst].
  rewrite Huser.
  pose proof (post_throws_Error backend "/log"
                (DailyLog.literal (DailyLog.coerce (DailyLog.formData st)))
                (emit AuthGetUser w)) as Hclass.
  destruct (apiClient.post backend "/log" _ (emit AuthGetUser w))
    as [[r|e] w']; simpl in Hpost; [discriminate|].
  injection Hpost as ->. exists w'.
  destruct reason as [errors|class msg]; [|reflexivity].
  by destruct (Hclass errors).
Qed.

Lemma handleSubmit_failure_keeps_the_form_witness :
  ∃ w',
    DailyLog.handleSubmit (H := Example.browser)
      (Example.answers
         (Failure (Parsed (VObject [("detail", VString "quota exceeded")]))))
      (DailyLog.mkState
         (DailyLog.mkMetrics "30" "Male" "7" [of_Z 5] "8000" "Normal" "120/80"
                             "72" "30")
         false ∅ [], Example.signed_in)
    = (Normal tt,
       (DailyLog.mkState
          (DailyLog.mkMetrics "30" "Male" "7" [of_Z 5] "8000" "Normal" "120/80"
                              "72" "30")
          false ∅
          [{| title := "Failed to save log";
              description := "quota exceeded";
              variant := Some "destructive" |}], w')).
Proof.
  apply (@handleSubmit_failure_keeps_the_form Example.browser
           (Example.answers
              (Failure (Parsed (VObject [("detail", VString "quota exceeded")]))))
           (DailyLog.mkState
              (DailyLog.mkMetrics "30" "Male" "7" [of_Z 5] "8000" "Normal"
                                  "120/80" "72" "30")
              false ∅ []) Example.signed_in (mkUser "u1")
           (JsError PlainError "quota exceeded")); [|reflexivity|reflexivity].
  unfold within_documented_ranges, in_range, not_below, Qle. simpl.
  repeat split; try lia; try discriminate.
  exists (of_Z 5). simpl. repeat split; lia.
Defined.

(** X12. One submission of the daily log sends at most one request, and
    only a POST to the log endpoint; it sends one only if somebody is
    signed in and no metric is missing or out of range. *)
Theorem handleSubmit_sends_at_most_one_request `{Runtime}
    (backend : Request -> FetchOutcome value) (st : DailyLog.State) (w : World) :
  requests (DailyLog.handleSubmit backend (st, w)).2.2 = requests w
  ∨ ∃ sent,
      requests (DailyLog.handleSubmit backend (st, w)).2.2
        = (requests w ++ [sent])%list
      ∧ method sent = POST
      ∧ target sent = Href (API_URL ++ "/log")
      ∧ is_Some (user w)
      ∧ ∀ name, ¬ offending (DailyLog.coerce (DailyLog.formData st)) name.
Proof.
  rewrite handleSubmit_cases. cbv zeta.
  destruct (Zod.parse _ _ _).1 as [validatedData|[errors|class msg]] eqn:Hparse;
    [|by left..].
  destruct (user w) as [u|] eqn:Huser; [|left; apply requests_emit_user].
  right. destruct (getAuthToken_run (emit AuthGetUser w)) as [token Htoken].
  exists (post_request token "/log" validatedData).
  assert ((apiClient.post backend "/log" validatedData (emit AuthGetUser w)).2
          = emit (Fetch (post_request token "/log" validatedData))
                 (emit AuthGetSession (emit AuthGetUser w))) as Hworld.
  { rewrite (post_run backend "/log" _ _ token) by by rewrite Htoken.
    apply fetch_settle_world. }
  destruct (apiClient.post backend "/log" validatedData (emit AuthGetUser w))
    as [[r|[errors|class msg]] w']; simpl in Hworld; subst w'; cbn [snd];
    rewrite requests_emit_fetch, requests_emit_session, requests_emit_user;
    (split; [reflexivity|]); (split; [reflexivity|]); (split; [reflexivity|]);
    (split; [done|]); intros name Hoffending;
    destruct (parse_rejects _ name
                (DailyLog.mkState (DailyLog.formData st) true ∅ (DailyLog.toasts st), w)
                Hoffending) as (issues & Hrejects & _);
    unfold submitted in Hparse; rewrite Hrejects in Hparse; discriminate Hparse.
Qed.

(** ** The prediction form *)

Section Predict_more.
Context `{Runtime}.

Lemma predictionSchema_sleepLogSchema :
  Predict.predictionSchema = DailyLog.sleepLogSchema.
Proof. reflexivity. Qed.

(** One submission of the prediction form, case by case. *)
Lemma predict_cases (backend : Request -> FetchOutcome Predict.PredictionResult)
    (st : Predict.State) (w : World) :
  Predict.handleSubmit backend (st, w) =
    let fd := Predict.formData st in
    let shown := Predict.toasts st in
    match (Zod.parse Predict.predictionSchema (VObject (submitted fd))
             (Predict.mkState fd None true ∅ shown, w)).1 with
    | Throw (ZodError errors) =>
        (Normal tt,
         (Predict.mkState fd None false (DailyLog.fieldErrors errors) shown, w))
    | Throw reason =>
        (Normal tt,
         (Predict.mkState fd None false ∅ (shown ++ [prediction_failed reason])%list,
          w))
    | Normal validatedData =>
        match user w with
        | None =>
            (Normal tt,
             (Predict.mkState fd None false ∅ (shown ++ [sign_in_to_predict])%list,
              emit AuthGetUser w))
        | Some _ =>
            match apiClient.post backend "/predict" validatedData
                    (emit AuthGetUser w) with
            | (Normal result, w') =>
                (Normal tt,
                 (Predict.mkState fd (Some result) false ∅
                    (shown ++ [prediction_ready])%list, w'))
            | (Throw (ZodError errors), w') =>
                (Normal tt,
                 (Predict.mkState fd None false (DailyLog.fieldErrors errors) shown,
                  w'))
            | (Throw reason, w') =>
                (Normal tt,
                 (Predict.mkState fd None false ∅
                    (shown ++ [prediction_failed reason])%list, w'))
            end
        end
    end.
Proof.
  unfold Predict.handleSubmit, finally, try_catch, page, outside,
    Predict.setIsLoading, Predict.setErrors, Predict.setPrediction,
    Predict.toast, modify, gets, submitted.
  unfold mbind at 1 2 3 4 5, M_bind at 1 2 3 4 5.
  cbn -[Zod.parse Zod.object_parse DailyLog.literal DailyLog.coerce
        DailyLog.fieldErrors Predict.predictionSchema apiClient.post].
  unfold mbind at 1, M_bind at 1.
  rewrite parse_cases. cbn [fst].
  destruct (Zod.object_parse _ _) as [[| |validatedData] [|issue issues]];
    try reflexivity.
  all: unfold mbind, M_bind, getUser;
    cbn -[apiClient.post DailyLog.literal DailyLog.coerce];
    cbv beta iota delta [fst snd];
    (destruct (user w); [|reflexivity]);
    by destruct (apiClient.post backend "/predict" validatedData (emit AuthGetUser w))
      as [[r|[errors|class msg]] w'].
Qed.
End Predict_more.

(** X13. A submission of the prediction form never throws and never
    leaves an earlier prediction on the page: when it returns the form
    is as typed, the loading flag is off, and the prediction is either
    absent or the result the backend has just returned. *)
Theorem stale_prediction_is_never_kept `{Runtime}
    (backend : Request -> FetchOutcome Predict.PredictionResult)
    (st : Predict.State) (w : World) :
  ∃ st' w',
    Predict.handleSubmit backend (st, w) = (Normal tt, (st', w'))
    ∧ Predict.isLoading st' = false
    ∧ Predict.formData st' = Predict.formData st
    ∧ (Predict.prediction st' = None
       ∨ ∃ validatedData result,
           (apiClient.post backend "/predict" validatedData (emit AuthGetUser w)).1
             = Normal result
           ∧ Predict.prediction st' = Some result).
Proof.
  rewrite predict_cases. cbv zeta.
  destruct (Zod.parse _ _ _).1 as [validatedData|[errors|class msg]];
    [|eexists _, _; by repeat split; [..|left]..].
  destruct (user w); [|eexists _, _; by repeat split; [..|left]].
  destruct (apiClient.post backend "/predict" validatedData (emit AuthGetUser w))
    as [[result|[errors|class msg]] w'] eqn:Hpost;
    eexists _, _; (split; [reflexivity|]); (split; [reflexivity|]);
    (split; [reflexivity|]); [right|by left..].
  exists validatedData, result. by rewrite Hpost.
Qed.

(** X14. A valid prediction request by a signed-in user that the backend
    answers with a success: the prediction shown is the body of the
    response as received, the form keeps its values, and the one request
    sent is a POST to the predict endpoint. *)
Theorem prediction_is_the_backend_result `{Runtime}
    (backend : Request -> FetchOutcome Predict.PredictionResult)
    (st : Predict.State) (w : World) (u : User)
    (result : Predict.PredictionResult) :
  within_documented_ranges (DailyLog.coerce (Predict.formData st)) ->
  user w = Some u ->
  (∀ req, backend req = Responded (Success (Parsed result))) ->
  ∃ sent w',
    Predict.handleSubmit backend (st, w) =
      (Normal tt,
       (Predict.mkState (Predict.formData st) (Some result) false ∅
          (Predict.toasts st ++ [prediction_ready])%list, w'))
    ∧ requests w' = (requests w ++ [sent])%list
    ∧ method sent = POST
    ∧ target sent = Href (API_URL ++ "/predict").
Proof.
  intros Hwithin Huser Hbackend.
  destruct (getAuthToken_run (emit AuthGetUser w)) as [token Htoken].
  exists (post_request token "/predict" (submitted (Predict.formData st))).
  exists (emit (Fetch (post_request token "/predict" (submitted (Predict.formData st))))
            (emit AuthGetSession (emit AuthGetUser w))).
  split.
  - rewrite predict_cases. cbv zeta. unfold submitted.
    rewrite predictionSchema_sleepLogSchema.
    rewrite (parse_accepts _ _ _ schema_fits Hwithin). cbn [fst].
    rewrite Huser.
    rewrite (post_run backend "/predict" _ _ token) by by rewrite Htoken.
    by rewrite (fetch_settle_responded _ _ _ _ (Hbackend _)).
  - by rewrite requests_emit_fetch, requests_emit_session, requests_emit_user.
Qed.

Lemma prediction_is_the_backend_result_witness :
  ∃ st' w',
    Predict.handleSubmit (H := Example.browser)
      (Example.answers
         (Success (Parsed (Predict.mkPredictionResult (of_Z 7) "None"
                             ["stress_level"] "Wind down earlier." "high" false))))
      (Predict.mkState
         (DailyLog.mkMetrics "30" "Male" "7" [of_Z 5] "8000" "Normal" "120/80"
                             "72" "30")
         None false ∅ [], Example.signed_in) = (Normal tt, (st', w'))
    ∧ Predict.prediction st'
      = Some (Predict.mkPredictionResult (of_Z 7) "None" ["stress_level"]
                "Wind down earlier." "high" false).
Proof.
  destruct (@prediction_is_the_backend_result Example.browser
              (Example.answers
                 (Success (Parsed (Predict.mkPredictionResult (of_Z 7) "None"
                                     ["stress_level"] "Wind down earlier." "high"
                                     false))))
              (Predict.mkState
                 (DailyLog.mkMetrics "30" "Male" "7" [of_Z 5] "8000" "Normal"
                                     "120/80" "72" "30")
                 None false ∅ []) Example.signed_in (mkUser "u1")
              (Predict.mkPredictionResult (of_Z 7) "None" ["stress_level"]
                 "Wind down earlier." "high" false))
    as (sent & w' & Hrun & _).
  - unfold within_documented_ranges, in_range, not_below, Qle. simpl.
    repeat split; try lia; try discriminate.
    exists (of_Z 5). simpl. repeat split; lia.
  - reflexivity.
  - reflexivity.
  - eexists _, w'. split; [exact Hrun|reflexivity].
Defined.

(** X15. The prediction form rejects an input with a missing or
    out-of-range metric as the daily log does: the error mapping holds
    the first complaint about each offending metric and nothing else,
    any earlier prediction is removed, and nothing leaves the page. *)
Theorem predict_rejects_invalid_input_locally `{Runtime}
    (backend : Request -> FetchOutcome Predict.PredictionResult)
    (st : Predict.State) (w : World) (name : string) :
  offending (DailyLog.coerce (Predict.formData st)) name ->
  ∃ st',
    Predict.handleSubmit backend (st, w) = (Normal tt, (st', w))
    ∧ (∀ f, Predict.errors st' !! f
            = first_complaint (DailyLog.coerce (Predict.formData st)) f)
    ∧ Predict.prediction st' = None
    ∧ Predict.formData st' = Predict.formData st
    ∧ Predict.toasts st' = Predict.toasts st.
Proof.
  intros Hoffending.
  destruct (parse_rejects (DailyLog.coerce (Predict.formData st)) name
              (Predict.mkState (Predict.formData st) None true ∅ (Predict.toasts st), w)
              Hoffending) as (issues & Hparse & Hissues).
  pose proof (fieldErrors_complaints (DailyLog.coerce (Predict.formData st)))
    as Hlookup.
  rewrite <- Hissues in Hlookup. clear Hissues.
  exists (Predict.mkState (Predict.formData st) None false
            (DailyLog.fieldErrors issues) (Predict.toasts st)).
  split; [|split; [exact Hlookup|split; [reflexivity|split; reflexivity]]].
  rewrite predict_cases. cbv zeta. unfold submitted.
  rewrite predictionSchema_sleepLogSchema. rewrite Hparse. reflexivity.
Qed.

Lemma predict_rejects_invalid_input_locally_witness :
  ∃ st',
    Predict.handleSubmit (H := Example.browser)
      (Example.answers (Success (Unparseable "unused")))
      (Predict.mkState
         (DailyLog.mkMetrics "30" "Male" "7" [of_Z 5] "8000" "Normal" "120/80"
                             "20" "30")
         (Some (Predict.mkPredictionResult (of_Z 7) "None" [] "" "high" false))
         false ∅ [], Example.signed_in)
      = (Normal tt, (st', Example.signed_in))
    ∧ Predict.errors st' !! "heart_rate"
      = Some "Number must be greater than or equal to 30"
    ∧ Predict.prediction st' = None.
Proof.
  destruct (@predict_rejects_invalid_input_locally Example.browser
              (Example.answers (Success (Unparseable "unused")))
              (Predict.mkState
                 (DailyLog.mkMetrics "30" "Male" "7" [of_Z 5] "8000" "Normal"
                                     "120/80" "20" "30")
                 (Some (Predict.mkPredictionResult (of_Z 7) "None" [] "" "high" false))
                 false ∅ [])
              Example.signed_in "heart_rate")
    as (st' & Hrun & Hlookup & Hprediction & _).
  - eexists. vm_compute. reflexivity.
  - exists st'. split; [exact Hrun|]. split; [|exact Hprediction].
    rewrite Hlookup. vm_compute. reflexivity.
Defined.

(** ** The dashboard: refreshes and what the page shows *)

Section refresh_more.
Context `{Runtime}.

Lemma window_entries (st : Dashboard.State) :
  window st = Some [("days", VNumber (parseInt (Dashboard.days st)))].
Proof. reflexivity. Qed.

Lemma window_serialisable (st : Dashboard.State) :
  serialisable (window st) = true.
Proof. reflexivity. Qed.

Lemma sorted_split {A} (R : relation A) (l1 l2 : list A) (x1 x2 : A) :
  StronglySorted R (l1 ++ l2) -> x1 ∈ l1 -> x2 ∈ l2 -> R x1 x2.
Proof.
  induction l1 as [|a l1 IH]; simpl; [by intros _ ?%elem_of_nil|].
  intros Hsorted Hx1 Hx2. apply StronglySorted_inv in Hsorted as [Hrest Hall].
  apply elem_of_cons in Hx1 as [->|Hx1]; [|by apply IH].
  rewrite Forall_forall in Hall. apply Hall. apply elem_of_app. by right.
Qed.
End refresh_more.

(** X16. No error escapes a refresh of the dashboard: it returns
    normally whatever the two requests do, with the loading flag off and
    the selected window as it was. *)
Theorem refresh_never_throws `{Runtime} (earliest : Side)
    (series : Request -> FetchOutcome Dashboard.SeriesData.t)
    (top_drivers : Request -> FetchOutcome Dashboard.DriversData.t)
    (st : Dashboard.State) (w : World) :
  ∃ st' w',
    Dashboard.fetchDashboardData earliest series top_drivers (st, w)
      = (Normal tt, (st', w'))
    ∧ Dashboard.isLoading st' = false
    ∧ Dashboard.days st' = Dashboard.days st.
Proof.
  destruct (apiClient.get series "/dashboard/series" (window st) w)
    as [first w1] eqn:Hfirst.
  destruct (apiClient.get top_drivers "/dashboard/top-drivers" (window st) w1)
    as [second w2] eqn:Hsecond.
  rewrite (fetchDashboardData_run earliest series top_drivers st w w1 w2
             first second Hfirst Hsecond).
  eexists _, _. split; [reflexivity|].
  destruct first, second; try destruct earliest; by split.
Qed.

(** X17. A refresh made with a credential sends exactly two requests,
    first for the series and then for the top drivers, both GET, both
    carrying the credential and the selected window as [token] and
    [days]; the second is sent whatever becomes of the first. *)
Theorem refresh_sends_both_requests `{Runtime} (earliest : Side)
    (series : Request -> FetchOutcome Dashboard.SeriesData.t)
    (top_drivers : Request -> FetchOutcome Dashboard.DriversData.t)
    (st : Dashboard.State) (w : World) (token : string) (url1 url2 : URL) :
  (apiClient.getAuthToken w).1 = Normal (Some token) ->
  new_URL (API_URL ++ "/dashboard/series") = Some url1 ->
  new_URL (API_URL ++ "/dashboard/top-drivers") = Some url2 ->
  let query :=
    [("token", token);
     ("days", Number_toString (parseInt (Dashboard.days st)))] in
  requests (Dashboard.fetchDashboardData earliest series top_drivers (st, w)).2.2
  = (requests w ++
       [mkRequest GET (Serialized (mkURL (href url1) (searchParams url1 ++ query)))
                  [] None;
        mkRequest GET (Serialized (mkURL (href url2) (searchParams url2 ++ query)))
                  [] None])%list.
Proof.
  intros Htoken Hurl1 Hurl2 query. subst query.
  assert (∀ w0, session w0 = session w ->
                (apiClient.getAuthToken w0).1 = Normal (Some token)) as Htoken'.
  { intros w0 Hsession. rewrite getAuthToken_value in *. by rewrite Hsession. }
  destruct (apiClient.get series "/dashboard/series" (window st) w)
    as [first w1] eqn:Hfirst.
  destruct (apiClient.get top_drivers "/dashboard/top-drivers" (window st) w1)
    as [second w2] eqn:Hsecond.
  rewrite (fetchDashboardData_run earliest series top_drivers st w w1 w2
             first second Hfirst Hsecond).
  cbn [snd].
  rewrite (get_run series _ _ w token url1 Htoken Hurl1
             (window_serialisable st)) in Hfirst.
  assert (w1 = emit (Fetch (get_request token url1 (window st)))
                    (emit AuthGetSession w)) as ->.
  { rewrite <- (fetch_settle_world series (get_request token url1 (window st))
                  (emit AuthGetSession w)). by rewrite Hfirst. }
  rewrite (get_run top_drivers _ _ _ token url2
             (Htoken' (emit (Fetch (get_request token url1 (window st)))
                            (emit AuthGetSession w)) eq_refl) Hurl2
             (window_serialisable st))
    in Hsecond.
  assert (w2 = emit (Fetch (get_request token url2 (window st)))
                    (emit AuthGetSession
                       (emit (Fetch (get_request token url1 (window st)))
                             (emit AuthGetSession w)))) as ->.
  { rewrite <- (fetch_settle_world top_drivers (get_request token url2 (window st))).
    by rewrite Hsecond. }
  rewrite requests_emit_fetch, requests_emit_session,
    requests_emit_fetch, requests_emit_session, <- app_assoc.
  reflexivity.
Qed.

Lemma refresh_sends_both_requests_witness :
  requests
    (Dashboard.fetchDashboardData (H := Example.browser) Left
       (Example.answers (Failure (Unparseable "Bad Gateway")))
       (Example.answers
          (Success (Parsed (Dashboard.DriversData.mk [] []))))
       (Dashboard.initialState, Example.signed_in)).2.2
  = [mkRequest GET
       (Serialized (mkURL "https://api.sleepwise.test/dashboard/series"
                          [("token", "jwt"); ("days", "7")])) [] None;
     mkRequest GET
       (Serialized (mkURL "https://api.sleepwise.test/dashboard/top-drivers"
                          [("token", "jwt"); ("days", "7")])) [] None].
Proof.
  apply (@refresh_sends_both_requests Example.browser Left
           (Example.answers (Failure (Unparseable "Bad Gateway")))
           (Example.answers (Success (Parsed (Dashboard.DriversData.mk [] []))))
           Dashboard.initialState Example.signed_in "jwt"
           (mkURL "https://api.sleepwise.test/dashboard/series" [])
           (mkURL "https://api.sleepwise.test/dashboard/top-drivers" []));
    reflexivity.
Defined.

(** X18. A refresh made without a credential sends nothing; the page
    keeps its data and shows one notification, that the authentication
    token was not found. *)
Theorem refresh_signed_out `{Runtime} (earliest : Side)
    (series : Request -> FetchOutcome Dashboard.SeriesData.t)
    (top_drivers : Request -> FetchOutcome Dashboard.DriversData.t)
    (st : Dashboard.State) (w : World) :
  (apiClient.getAuthToken w).1 = Normal None ->
  ∃ w',
    Dashboard.fetchDashboardData earliest series top_drivers (st, w)
      = (Normal tt,
         (Dashboard.mkState (Dashboard.logs st) (Dashboard.averages st)
            (Dashboard.topDrivers st) false (Dashboard.days st)
            (Dashboard.toasts st ++
               [{| title := "Failed to load dashboard";
                   description := "Authentication token not found.";
                   variant := Some "destructive" |}])%list, w'))
    ∧ requests w' = requests w.
Proof.
  intros Hnone.
  assert ((apiClient.getAuthToken (emit AuthGetSession w)).1 = Normal None)
    as Hnone'.
  { by rewrite getAuthToken_value in *. }
  exists (emit AuthGetSession (emit AuthGetSession w)).
  rewrite (fetchDashboardData_run earliest series top_drivers st w
             (emit AuthGetSession w) (emit AuthGetSession (emit AuthGetSession w))
             (Throw (JsError PlainError "Authentication token not found."))
             (Throw (JsError PlainError "Authentication token not found."))).
  - split; [by destruct earliest|].
    by rewrite !requests_emit_session.
  - by apply get_no_token_run.
  - by apply get_no_token_run.
Qed.

Lemma refresh_signed_out_witness :
  ∃ st' w',
    Dashboard.fetchDashboardData (H := Example.browser) Right
      (Example.answers (Success (Parsed (Dashboard.SeriesData.mk []
         (Dashboard.mkAverages (of_Z 7) (of_Z 8) (of_Z 3) (of_Z 9000))))))
      (Example.answers (Success (Parsed (Dashboard.DriversData.mk [] []))))
      (Dashboard.initialState, Example.signed_out) = (Normal tt, (st', w'))
    ∧ requests w' = []
    ∧ length (Dashboard.toasts st') = 1%nat.
Proof.
  destruct (@refresh_signed_out Example.browser Right
              (Example.answers (Success (Parsed (Dashboard.SeriesData.mk []
                 (Dashboard.mkAverages (of_Z 7) (of_Z 8) (of_Z 3) (of_Z 9000))))))
              (Example.answers (Success (Parsed (Dashboard.DriversData.mk [] []))))
              Dashboard.initialState Example.signed_out eq_refl)
    as (w' & Hrun & Hrequests).
  eexists _, w'. split; [exact Hrun|]. split; [exact Hrequests|reflexivity].
Defined.

Lemma top_drivers_length (driver_counts : object Z) :
  length (Dashboard.formatDrivers driver_counts)
    = Nat.min 5 (length (Obj.entries driver_counts)).
Proof.
  unfold Dashboard.formatDrivers, slice0.
  by rewrite length_map, length_take, Array_sort_perm.
Qed.

(** X19. The top-drivers list never has more than five entries; it has
    five, or all of them when the mapping holds fewer; the entries shown
    are entries of the mapping, and no entry left out has a higher count
    than one that is shown. *)
Theorem top_drivers_are_the_five_most_frequent (driver_counts : object Z) :
  length (Dashboard.formatDrivers driver_counts)
    = Nat.min 5 (length (Obj.entries driver_counts))
  ∧ ∃ left_out,
      Obj.entries driver_counts
        ≡ₚ (map (fun d => (Dashboard.driver d, Dashboard.count d))
                (Dashboard.formatDrivers driver_counts) ++ left_out)%list
      ∧ ∀ d e, d ∈ Dashboard.formatDrivers driver_counts -> e ∈ left_out ->
               (e.2 <= Dashboard.count d)%Z.
Proof.
  split; [apply top_drivers_length|].
  unfold Dashboard.formatDrivers, slice0.
  pose proof (Array_sort_perm (Obj.entries driver_counts)) as Hperm.
  pose proof (Array_sort_sorted (Obj.entries driver_counts)) as Hsorted.
  set (sorted := Array_sort Dashboard.by_count (Obj.entries driver_counts)) in *.
  - exists (drop 5 sorted).
    rewrite map_map. simpl.
    assert (map (fun e : string * Z => (e.1, e.2)) (take 5 sorted) = take 5 sorted)
      as ->.
    { clear. induction (take 5 sorted) as [|[k c] l IH]; [done|].
      simpl. by rewrite IH. }
    rewrite take_drop. split; [done|].
    intros d e Hd He. apply list_elem_of_fmap in Hd as (x & -> & Hx). simpl.
    rewrite <- (take_drop 5 sorted) in Hsorted.
    exact (sorted_split by_count_desc _ _ x e Hsorted Hx He).
Qed.

(** X20. After a failed refresh the page leaves the spinner and shows
    what its data were before: the "No Sleep Data Yet" card if it had no
    logs, as after a first load that failed, and otherwise the charts of
    the data it already had. *)
Theorem failed_refresh_shows_what_was_there `{Runtime} (earliest : Side)
    (series : Request -> FetchOutcome Dashboard.SeriesData.t)
    (top_drivers : Request -> FetchOutcome Dashboard.DriversData.t)
    (st : Dashboard.State) (w w1 w2 : World)
    (first : Completion Dashboard.SeriesData.t)
    (second : Completion Dashboard.DriversData.t) :
  apiClient.get series "/dashboard/series" (window st) w = (first, w1) ->
  apiClient.get top_drivers "/dashboard/top-drivers" (window st) w1 = (second, w2) ->
  rejected first ∨ rejected second ->
  DashboardView.render
    (Dashboard.fetchDashboardData earliest series top_drivers (st, w)).2.1
  = match Dashboard.logs st with
    | [] => DashboardView.NoSleepDataYet
    | _ :: _ =>
        DashboardView.Charts
          (bool_decide (Dashboard.topDrivers st ≠ []))
    end.
Proof.
  intros Hfirst Hsecond Hrejected.
  rewrite (fetchDashboardData_run earliest series top_drivers st w w1 w2
             first second Hfirst Hsecond).
  assert (∀ reason,
             DashboardView.render (after_failure st reason)
             = match Dashboard.logs st with
               | [] => DashboardView.NoSleepDataYet
               | _ :: _ =>
                   DashboardView.Charts
                     (bool_decide (Dashboard.topDrivers st ≠ []))
               end) as Hrender.
  { intros reason. unfold DashboardView.render, after_failure. simpl.
    destruct (Dashboard.logs st); [done|]. simpl.
    by destruct (Dashboard.topDrivers st). }
  destruct first as [seriesData|reason1], second as [driversData|reason2];
    cbn [fst snd]; try apply Hrender.
  destruct Hrejected as [[? ?]|[? ?]]; discriminate.
Qed.

Lemma failed_refresh_shows_what_was_there_witness :
  DashboardView.render
    (Dashboard.fetchDashboardData (H := Example.browser) Left
       (fun _ => Unreachable "Failed to fetch")
       (fun _ => Unreachable "Failed to fetch")
       (Dashboard.initialState, Example.signed_in)).2.1
  = DashboardView.NoSleepDataYet.
Proof.
  pose (w1 := emit (Fetch (@get_request Example.browser "jwt"
                  (mkURL "https://api.sleepwise.test/dashboard/series" [])
                  (@window Example.browser Dashboard.initialState)))
                (emit AuthGetSession Example.signed_in)).
  pose (w2 := emit (Fetch (@get_request Example.browser "jwt"
                  (mkURL "https://api.sleepwise.test/dashboard/top-drivers" [])
                  (@window Example.browser Dashboard.initialState)))
                (emit AuthGetSession w1)).
  apply (@failed_refresh_shows_what_was_there Example.browser Left
           (fun _ => Unreachable "Failed to fetch")
           (fun _ => Unreachable "Failed to fetch")
           Dashboard.initialState Example.signed_in w1 w2
           (Throw (JsError TypeError "Failed to fetch"))
           (Throw (JsError TypeError "Failed to fetch")));
    [reflexivity|reflexivity|].
  left. by eexists.
Defined.

(** X21. After a refresh whose two requests succeed, the page shows the
    "No Sleep Data Yet" card when the series holds no log, whatever the
    averages and the driver counts of the responses; otherwise it shows
    the charts, with the "Top Sleep Factors" card exactly when the
    mapping of driver counts is not empty. *)
Theorem successful_refresh_panel `{Runtime} (earliest : Side)
    (series : Request -> FetchOutcome Dashboard.SeriesData.t)
    (top_drivers : Request -> FetchOutcome Dashboard.DriversData.t)
    (st : Dashboard.State) (w w1 w2 : World)
    (seriesData : Dashboard.SeriesData.t) (driversData : Dashboard.DriversData.t) :
  apiClient.get series "/dashboard/series" (window st) w = (Normal seriesData, w1) ->
  apiClient.get top_drivers "/dashboard/top-drivers" (window st) w1
    = (Normal driversData, w2) ->
  DashboardView.render
    (Dashboard.fetchDashboardData earliest series top_drivers (st, w)).2.1
  = match Dashboard.SeriesData.logs seriesData with
    | [] => DashboardView.NoSleepDataYet
    | _ :: _ =>
        DashboardView.Charts
          (bool_decide (Dashboard.DriversData.driver_counts driversData ≠ []))
    end.
Proof.
  intros Hfirst Hsecond.
  rewrite (fetchDashboardData_run earliest series top_drivers st w w1 w2
             _ _ Hfirst Hsecond).
  unfold DashboardView.render. simpl.
  destruct (Dashboard.SeriesData.logs seriesData); [done|]. simpl.
  destruct (Dashboard.DriversData.driver_counts driversData) as [|[k c] rest];
    [done|].
  pose proof (top_drivers_length ((k, c) :: rest)) as Hlength.
  destruct (Dashboard.formatDrivers ((k, c) :: rest)); [discriminate|done].
Qed.

Lemma successful_refresh_panel_witness :
  DashboardView.render
    (Dashboard.fetchDashboardData (H := Example.browser) Left
       (Example.answers
          (Success (Parsed (Dashboard.SeriesData.mk []
             (Dashboard.mkAverages (of_Z 7) (of_Z 8) (of_Z 3) (of_Z 9000))))))
       (Example.answers
          (Success (Parsed (Dashboard.DriversData.mk ["stress"]
             (Obj.of_entries [("stress", 2%Z)])))))
       (Dashboard.initialState, Example.signed_in)).2.1
  = DashboardView.NoSleepDataYet.
Proof.
  pose (w1 := emit (Fetch (@get_request Example.browser "jwt"
                  (mkURL "https://api.sleepwise.test/dashboard/series" [])
                  (@window Example.browser Dashboard.initialState)))
                (emit AuthGetSession Example.signed_in)).
  pose (w2 := emit (Fetch (@get_request Example.browser "jwt"
                  (mkURL "https://api.sleepwise.test/dashboard/top-drivers" [])
                  (@window Example.browser Dashboard.initialState)))
                (emit AuthGetSession w1)).
  apply (@successful_refresh_panel Example.browser Left
           (Example.answers
              (Success (Parsed (Dashboard.SeriesData.mk []
                 (Dashboard.mkAverages (of_Z 7) (of_Z 8) (of_Z 3) (of_Z 9000))))))
           (Example.answers
              (Success (Parsed (Dashboard.DriversData.mk ["stress"]
                 (Obj.of_entries [("stress", 2%Z)])))))
           Dashboard.initialState Example.signed_in w1 w2
           (Dashboard.SeriesData.mk []
              (Dashboard.mkAverages (of_Z 7) (of_Z 8) (of_Z 3) (of_Z 9000)))
           (Dashboard.DriversData.mk ["stress"] (Obj.of_entries [("stress", 2%Z)])));
    reflexivity.
Defined.

(** ** The tip feedback *)

Section TipFeedback_more.

(** One submission of the feedback, case by case. *)
Lemma feedback_cases (followed acknowledged : bool)
    (onFeedbackSubmitted : option (Completion unit))
    (table : TipFeedback.Row -> TipFeedback.InsertOutcome)
    (st : TipFeedback.State) (w : World) :
  TipFeedback.handleSubmit followed acknowledged onFeedbackSubmitted table (st, w) =
    let shown := TipFeedback.toasts st in
    let sent := TipFeedback.sent st in
    let calls := TipFeedback.notified st in
    (Normal tt,
     (match user w with
      | None =>
          TipFeedback.mkState false (TipFeedback.isSubmitted st)
            (shown ++ [sign_in_to_give_feedback])%list sent calls
      | Some u =>
          let row := TipFeedback.mkRow (id u) followed acknowledged in
          match table row with
          | TipFeedback.Inserted =>
              match onFeedbackSubmitted with
              | None =>
                  TipFeedback.mkState false true
                    (shown ++ [feedback_submitted])%list (sent ++ [row])%list calls
              | Some (Normal _) =>
                  TipFeedback.mkState false true
                    (shown ++ [feedback_submitted])%list (sent ++ [row])%list
                    (S calls)
              | Some (Throw _) =>
                  TipFeedback.mkState false true
                    ((shown ++ [feedback_submitted]) ++
                       [feedback_failed "An unexpected error occurred."])%list
                    (sent ++ [row])%list (S calls)
              end
          | TipFeedback.Refused message =>
              TipFeedback.mkState false (TipFeedback.isSubmitted st)
                (shown ++ [feedback_failed message])%list (sent ++ [row])%list calls
          | TipFeedback.Rejected _ =>
              TipFeedback.mkState false (TipFeedback.isSubmitted st)
                (shown ++ [feedback_failed "An unexpected error occurred."])%list
                (sent ++ [row])%list calls
          end
      end, emit AuthGetUser w)).
Proof.
  unfold TipFeedback.handleSubmit, finally, try_catch, page, outside, getUser,
    TipFeedback.setIsSubmitting, TipFeedback.setIsSubmitted, TipFeedback.toast,
    TipFeedback.insert, TipFeedback.call, modify, mbind, M_bind, mret, M_ret.
  cbv beta iota zeta delta [fst snd]. cbn.
  destruct (user w) as [u|]; [|reflexivity]. cbn.
  destruct (table _) as [|message|reason]; cbn; try reflexivity.
  by destruct onFeedbackSubmitted as [[[]|reason]|].
Qed.
End TipFeedback_more.

(** X22. No error escapes the submission of a tip feedback, and the
    submitting flag is off when it returns; at most one row is sent to
    the table, made of the signed-in user's id and the two checkboxes,
    and none at all when nobody is signed in. *)
Theorem feedback_never_throws (followed acknowledged : bool)
    (onFeedbackSubmitted : option (Completion unit))
    (table : TipFeedback.Row -> TipFeedback.InsertOutcome)
    (st : TipFeedback.State) (w : World) :
  ∃ st',
    TipFeedback.handleSubmit followed acknowledged onFeedbackSubmitted table (st, w)
      = (Normal tt, (st', emit AuthGetUser w))
    ∧ TipFeedback.isSubmitting st' = false
    ∧ TipFeedback.sent st'
      = match user w with
        | None => TipFeedback.sent st
        | Some u =>
            (TipFeedback.sent st ++
               [TipFeedback.mkRow (id u) followed acknowledged])%list
        end.
Proof.
  rewrite feedback_cases. cbv zeta. eexists. split; [reflexivity|].
  destruct (user w) as [u|]; [|done].
  destruct (table _); [|done..].
  by destruct onFeedbackSubmitted as [[|]|].
Qed.

(** X23. When the table accepts the row, the feedback is marked as
    submitted, the success notification is shown and the parent's
    callback, if there is one, is called once; should that callback
    throw, the feedback stays marked as submitted and a failure
    notification follows the success notification. *)
Theorem accepted_feedback_is_marked_submitted (followed acknowledged : bool)
    (onFeedbackSubmitted : option (Completion unit))
    (table : TipFeedback.Row -> TipFeedback.InsertOutcome)
    (st : TipFeedback.State) (w : World) (u : User) :
  user w = Some u ->
  table (TipFeedback.mkRow (id u) followed acknowledged) = TipFeedback.Inserted ->
  let st' :=
    (TipFeedback.handleSubmit followed acknowledged onFeedbackSubmitted table
       (st, w)).2.1 in
  TipFeedback.isSubmitted st' = true
  ∧ TipFeedback.notified st'
    = match onFeedbackSubmitted with
      | Some _ => S (TipFeedback.notified st)
      | None => TipFeedback.notified st
      end
  ∧ TipFeedback.toasts st'
    = match onFeedbackSubmitted with
      | Some (Throw _) =>
          (TipFeedback.toasts st ++
             [feedback_submitted;
              feedback_failed "An unexpected error occurred."])%list
      | _ => (TipFeedback.toasts st ++ [feedback_submitted])%list
      end.
Proof.
  intros Huser Hinserted st'. subst st'.
  rewrite feedback_cases. cbv zeta. rewrite Huser, Hinserted.
  destruct onFeedbackSubmitted as [[[]|reason]|]; cbn; try done.
  by rewrite <- app_assoc.
Qed.

Lemma accepted_feedback_is_marked_submitted_witness :
  TipFeedback.isSubmitted
    (TipFeedback.handleSubmit true true
       (Some (Throw (JsError PlainError "parent failed")))
       (fun _ => TipFeedback.Inserted)
       (TipFeedback.initialState, Example.signed_in)).2.1 = true
  ∧ length (TipFeedback.toasts
      (TipFeedback.handleSubmit true true
         (Some (Throw (JsError PlainError "parent failed")))
         (fun _ => TipFeedback.Inserted)
         (TipFeedback.initialState, Example.signed_in)).2.1) = 2%nat.
Proof.
  destruct (accepted_feedback_is_marked_submitted true true
              (Some (Throw (JsError PlainError "parent failed")))
              (fun _ => TipFeedback.Inserted)
              TipFeedback.initialState Example.signed_in (mkUser "u1")
              eq_refl eq_refl) as (Hsubmitted & _ & Htoasts).
  split; [exact Hsubmitted|]. by rewrite Htoasts.
Defined.

(** X24. When nobody is signed in, or the table answers with an error,
    or the insert is rejected, the feedback is not marked as submitted,
    the parent's callback is not called, and exactly one notification is
    added: the sign-in request, the error's own message, or the generic
    "An unexpected error occurred." *)
Theorem refused_feedback_is_not_marked_submitted (followed acknowledged : bool)
    (onFeedbackSubmitted : option (Completion unit))
    (table : TipFeedback.Row -> TipFeedback.InsertOutcome)
    (st : TipFeedback.State) (w : World) :
  (∀ u, user w = Some u ->
        table (TipFeedback.mkRow (id u) followed acknowledged)
          ≠ TipFeedback.Inserted) ->
  let st' :=
    (TipFeedback.handleSubmit followed acknowledged onFeedbackSubmitted table
       (st, w)).2.1 in
  TipFeedback.isSubmitted st' = TipFeedback.isSubmitted st
  ∧ TipFeedback.notified st' = TipFeedback.notified st
  ∧ ∃ message,
      TipFeedback.toasts st'
        = (TipFeedback.toasts st ++
             [{| title := match user w with
                          | None => "Authentication required"
                          | Some _ => "Failed to save feedback"
                          end;
                 description := message;
                 variant := Some "destructive" |}])%list
      ∧ match user w with
        | None => message = "Please sign in to provide feedback."
        | Some u =>
            match table (TipFeedback.mkRow (id u) followed acknowledged) with
            | TipFeedback.Refused reason => message = reason
            | _ => message = "An unexpected error occurred."
            end
        end.
Proof.
  intros Hrefused st'. subst st'.
  rewrite feedback_cases. cbv zeta.
  destruct (user w) as [u|]; [|by repeat split; eexists].
  specialize (Hrefused u eq_refl).
  destruct (table _) as [|message|reason]; [done|..];
    by repeat split; eexists.
Qed.

Lemma refused_feedback_is_not_marked_submitted_witness :
  TipFeedback.isSubmitted
    (TipFeedback.handleSubmit true false None
       (fun _ => TipFeedback.Refused "row violates row-level security policy")
       (TipFeedback.initialState, Example.signed_in)).2.1 = false.
Proof.
  destruct (refused_feedback_is_not_marked_submitted true false None
              (fun _ => TipFeedback.Refused "row violates row-level security policy")
              TipFeedback.initialState Example.signed_in) as (Hsubmitted & _).
  - intros u _. discriminate.
  - exact Hsubmitted.
Defined.
